(** * CodeEditor (src/editor.js)

    A shallow embedding of the editor controller: the per-language code
    buffers ([this.code]), the selected language, the change listeners, the
    XML persistence of the buffers, and the push and save actions.

    The collaborators the controller talks to are part of the state, as far
    as the controller can observe them: the text area of the highlighting
    engine (CodeFlask), the global [Kalebr] of the host page, and the logs of
    the calls made to [Kalebr.Console.upload] and to [saveAs]. What the
    source does not determine of them is left open: how the text area reads
    back a text it is given, and the document the browser returns for an
    input that the model of XML below does not parse. *)

From stdpp Require Import gmap strings list fin_maps.
From Stdlib Require Import Ascii.

(** ** JavaScript strings and the few operators used on them *)

(** The double quote, which the source writes inside single-quoted literals. *)
Definition dquote : string := String "034"%char EmptyString.

(** [a || b] where [a] is a string or [undefined]: the empty string and
    [undefined] are falsy. *)
Definition js_or (a : option string) (b : string) : string :=
  match a with
  | Some (String c s) => String c s
  | _ => b
  end.

(** [Array.prototype.join] with the empty separator: an [undefined] entry
    contributes the empty string. *)
Fixpoint join_empty (nodes : list (option string)) : string :=
  match nodes with
  | [] => EmptyString
  | n :: rest => default EmptyString n +:+ join_empty rest
  end.

(** ** The configured languages *)

Record LanguageDescriptor := {
  value : string;
  text : string;
  syntax : option string;     (* the property named language, blockly only *)
  extension : string;
  readOnly : option bool
}.

Definition languages : list LanguageDescriptor :=
  [ {| value := "python"; text := "Python"; syntax := None;
       extension := ".py"; readOnly := None |};
    {| value := "javascript"; text := "JavaScript"; syntax := None;
       extension := ".js"; readOnly := None |};
    {| value := "arduino"; text := "Arduino"; syntax := None;
       extension := ".ino"; readOnly := None |};
    {| value := "blockly"; text := "Blockly"; syntax := Some "python";
       extension := ".py"; readOnly := Some true |} ].

(** ** Documents

    The nodes of a document whose elements and attributes are in no
    namespace: elements with their attributes in document order, character
    data and comments. *)

#[local] Set Warnings "-register-all".

Inductive node :=
  | Element (tag : string) (attrs : list (string * string)) (children : list node)
  | Text (data : string)
  | Comment (data : string).

(** ** The editor object *)

(** A listener is a function of the host, known to the editor by its identity
    only. What it does when called is given by [listener_body] below. *)
Definition listener := nat.

Inductive event :=
  | LANGUAGE_SELECTED (v : string)
  | CODE_UPDATED.

(** The highlighting engine as the editor sees it: the language it highlights,
    the content and read-only flag of its text area, and the language captured
    by the update callback registered last. [run] builds a new text area, so a
    callback registered before it is gone. [textarea_value s] is the value
    the text area holds after [update(s)]: a text area normalises the
    newlines of a text it is given, and the engine may change more (tabs, in
    some of its versions); the source leaves it to them. *)
Record Flask := {
  flask_language : string;
  textarea : string;
  textarea_readOnly : bool;
  onUpdate_language : option string;
  textarea_value : string → string
}.

(** The global [Kalebr] of the host page. *)
Inductive KalebrGlobal :=
  | KalebrUndeclared
  | KalebrWithoutConsole
  | KalebrWithConsole.

(** [code] holds the own properties of the object [this.code], from
    property keys to the stored texts. [other_documents s] is the document
    the parser of the browser returns for an input [s] that the model of XML
    below does not parse: an input that is not well formed, for which the
    engines differ, or one outside the modelled part of XML. *)
Record CodeEditor := {
  language : string;
  code : gmap string string;
  listeners_ : list listener;
  flask : Flask;
  pushDisabled : bool;
  Kalebr : KalebrGlobal;
  uploads : list string;              (* arguments of Kalebr.Console.upload *)
  saved : list (string * string);     (* blob text and file name of saveAs *)
  other_documents : string → list node
}.

Definition set_language (l : string) (e : CodeEditor) : CodeEditor :=
  {| language := l; code := code e; listeners_ := listeners_ e;
     flask := flask e; pushDisabled := pushDisabled e; Kalebr := Kalebr e;
     uploads := uploads e; saved := saved e;
     other_documents := other_documents e |}.

Definition set_code (c : gmap string string) (e : CodeEditor) : CodeEditor :=
  {| language := language e; code := c; listeners_ := listeners_ e;
     flask := flask e; pushDisabled := pushDisabled e; Kalebr := Kalebr e;
     uploads := uploads e; saved := saved e;
     other_documents := other_documents e |}.

Definition set_listeners (ls : list listener) (e : CodeEditor) : CodeEditor :=
  {| language := language e; code := code e; listeners_ := ls;
     flask := flask e; pushDisabled := pushDisabled e; Kalebr := Kalebr e;
     uploads := uploads e; saved := saved e;
     other_documents := other_documents e |}.

Definition set_flask (f : Flask) (e : CodeEditor) : CodeEditor :=
  {| language := language e; code := code e; listeners_ := listeners_ e;
     flask := f; pushDisabled := pushDisabled e; Kalebr := Kalebr e;
     uploads := uploads e; saved := saved e;
     other_documents := other_documents e |}.

Definition set_pushDisabled (b : bool) (e : CodeEditor) : CodeEditor :=
  {| language := language e; code := code e; listeners_ := listeners_ e;
     flask := flask e; pushDisabled := b; Kalebr := Kalebr e;
     uploads := uploads e; saved := saved e;
     other_documents := other_documents e |}.

Definition log_upload (c : string) (e : CodeEditor) : CodeEditor :=
  {| language := language e; code := code e; listeners_ := listeners_ e;
     flask := flask e; pushDisabled := pushDisabled e; Kalebr := Kalebr e;
     uploads := uploads e ++ [c]; saved := saved e;
     other_documents := other_documents e |}.

Definition log_saveAs (blob name : string) (e : CodeEditor) : CodeEditor :=
  {| language := language e; code := code e; listeners_ := listeners_ e;
     flask := flask e; pushDisabled := pushDisabled e; Kalebr := Kalebr e;
     uploads := uploads e; saved := saved e ++ [(blob, name)];
     other_documents := other_documents e |}.

(** A method either returns or throws; the object keeps the changes made
    before the throw. *)
Inductive exn := TypeError | ReferenceError.

Inductive completion :=
  | Normal (e : CodeEditor)
  | Throw (x : exn) (e : CodeEditor).

Definition editor_of (c : completion) : CodeEditor :=
  match c with Normal e => e | Throw _ e => e end.

Definition and_then (c : completion) (k : CodeEditor → completion) : completion :=
  match c with
  | Normal e => k e
  | Throw x e => Throw x e
  end.

(** [object[key] = v] for a string [v] on a plain object: an own property
    is created or replaced, except under the key [__proto__], where the
    assignment of a string does nothing. *)
Definition js_set (k v : string) (m : gmap string string) : gmap string string :=
  if decide (k = "__proto__") then m else <[k := v]> m.

(** [this.code[language] || ''], for a language that names no property of
    [Object.prototype], as is the case of every configured identifier. *)
Definition buffer (e : CodeEditor) (l : string) : string :=
  js_or (code e !! l) EmptyString.

Definition getSelectedLanguage (e : CodeEditor) : string := language e.

Definition getLanguageAttributes (l : string) : option LanguageDescriptor :=
  head (filter (λ item, value item = l) languages).

Definition makeReadOnly (r : option bool) (e : CodeEditor) : CodeEditor :=
  let f := flask e in
  set_flask {| flask_language := flask_language f; textarea := textarea f;
               textarea_readOnly := default false r;
               onUpdate_language := onUpdate_language f;
               textarea_value := textarea_value f |} e.

(** [refreshEditor(language)]; [None] is the call without an argument. The
    argument of [flask.run] reads [languageAttributes.language], which throws
    before anything is changed when the language has no descriptor. After
    [flask.update(oldCode)] the text area holds [oldCode] as it reads it
    back. *)
Definition refreshEditor (l : option string) (e : CodeEditor) : completion :=
  let l := js_or l (js_or (Some (language e)) "python") in
  match getLanguageAttributes l with
  | None => Throw TypeError e
  | Some languageAttributes =>
      let oldCode := buffer e l in
      let e1 := set_flask {| flask_language := js_or (syntax languageAttributes) l;
                             textarea := textarea_value (flask e) oldCode;
                             textarea_readOnly := false;
                             onUpdate_language := Some l;
                             textarea_value := textarea_value (flask e) |} e in
      Normal (makeReadOnly (readOnly languageAttributes) e1)
  end.

Definition disablePushButton (disable : bool) (e : CodeEditor) : CodeEditor :=
  set_pushDisabled disable e.

Definition updatePushButtonStatus (l : string) (e : CodeEditor) : CodeEditor :=
  let disable := negb (bool_decide (l = "python")) in
  disablePushButton disable e.

Definition addCodeToEditor (c l : string) (e : CodeEditor) : CodeEditor :=
  set_code (js_set l c (code e)) e.

(** ** Serialisation of the buffers *)

(** The string built for one language: the literal of the source has a space
    between the closing quote of the attribute and the end of the tag. *)
Definition language_element (l c : string) : string :=
  "<language value=" +:+ dquote +:+ l +:+ dquote +:+ " >" +:+ c +:+ "</language>".

(** The callback mapped over [this.languages]; [None] is the [undefined] it
    returns for blockly. *)
Definition language_node (e : CodeEditor) (l : LanguageDescriptor) : option string :=
  if decide (value l = "blockly") then None
  else
    let c := buffer e (value l) in
    Some (language_element (value l) c).

Definition getStateAsXmlString (e : CodeEditor) : string :=
  let nodes := map (language_node e) languages in
  "<editor>" +:+ join_empty nodes +:+ "</editor>".

(** [this.code = {}; this.refreshEditor()] *)
Definition clear (e : CodeEditor) : completion :=
  refreshEditor None (set_code ∅ e).

(** ** The document object model of a parsed state

    [DOMParser.parseFromString(s, 'text/xml')], [getElementsByTagName],
    [getAttribute] and [innerHTML] belong to the browser. They are modelled
    for the part of XML 1.0 made of elements, attributes in single or double
    quotes, character data, the five predefined entity references and
    comments, over ASCII characters, with names made of letters, digits,
    underscore, hyphen and full stop, and without namespaces. A string the
    model parses is a well-formed document, and the model gives its nodes.
    For every other string the model says nothing: it may be not well
    formed, or use what the model leaves out (an XML or document type
    declaration, processing instructions, CDATA sections, numeric character
    references, namespace declarations and prefixes, characters outside
    ASCII, which a string holds as bytes from 128 on). *)

Definition ch (c : ascii) : string := String c EmptyString.
Definition snoc (s : string) (c : ascii) : string := s +:+ ch c.

Definition is_space (c : ascii) : bool :=
  Ascii.eqb c " " || Ascii.eqb c "009" || Ascii.eqb c "010" || Ascii.eqb c "013".

Definition is_name_start (c : ascii) : bool :=
  let n := nat_of_ascii c in
  (65 <=? n) && (n <=? 90) || (97 <=? n) && (n <=? 122) || (n =? 95).

Definition is_name_char (c : ascii) : bool :=
  let n := nat_of_ascii c in
  is_name_start c || (48 <=? n) && (n <=? 57) || (n =? 45) || (n =? 46).

(** The ASCII characters of the production Char of XML 1.0. *)
Definition xml_char (c : ascii) : bool :=
  let n := nat_of_ascii c in
  (n <? 128) && ((32 <=? n) || (n =? 9) || (n =? 10) || (n =? 13)).

(** End-of-line handling, done before parsing: a carriage return followed by
    a line feed, and a carriage return alone, become one line feed. *)
Fixpoint normalize_newlines (s : string) : string :=
  match s with
  | EmptyString => EmptyString
  | String c r =>
      if Ascii.eqb c "013" then
        match r with
        | String d r' =>
            if Ascii.eqb d "010" then String "010" (normalize_newlines r')
            else String "010" (normalize_newlines r)
        | EmptyString => String "010" EmptyString
        end
      else String c (normalize_newlines r)
  end.

Definition predefined_entity (name : string) : option ascii :=
  if decide (name = "lt") then Some "<"%char
  else if decide (name = "gt") then Some ">"%char
  else if decide (name = "amp") then Some "&"%char
  else if decide (name = "quot") then Some "034"%char
  else if decide (name = "apos") then Some "'"%char
  else None.

Fixpoint ends_with_brackets (s : string) : bool :=
  match s with
  | String a (String b EmptyString) => Ascii.eqb a "]" && Ascii.eqb b "]"
  | String _ r => ends_with_brackets r
  | EmptyString => false
  end.

(** An element whose end tag has not been read yet. *)
Record frame := {
  f_tag : string;
  f_attrs : list (string * string);
  f_children : list node
}.

Inductive lexer_mode :=
  | Content (acc : string)
  | Reference (acc name : string)
  | TagOpen
  | StartName (name : string)
  | InTag (name : string) (attrs : list (string * string))
  | AttrName (name : string) (attrs : list (string * string)) (an : string)
  | AttrEq (name : string) (attrs : list (string * string)) (an : string)
  | AttrQuote (name : string) (attrs : list (string * string)) (an : string)
  | AttrValue (name : string) (attrs : list (string * string)) (an : string)
              (q : ascii) (acc : string)
  | AttrReference (name : string) (attrs : list (string * string)) (an : string)
                  (q : ascii) (acc ref : string)
  | AfterAttr (name : string) (attrs : list (string * string))
  | EmptyTagEnd (name : string) (attrs : list (string * string))
  | EndName (name : string)
  | EndSpace (name : string)
  | Bang
  | BangDash
  | InComment (acc : string)
  | CommentDash (acc : string)
  | CommentDashDash (acc : string).

(** The parser reads one character at a time. [stack] holds the open
    elements, innermost first; [top] the children of the document. [Failed]
    is the state after a character the model does not go on from. *)
Inductive pstate :=
  | PS (m : lexer_mode) (stack : list frame) (top : list node)
  | Failed.

Definition add_child (n : node) (stack : list frame) (top : list node) : pstate :=
  match stack with
  | [] => PS (Content EmptyString) [] (top ++ [n])
  | f :: rest =>
      PS (Content EmptyString)
         ({| f_tag := f_tag f; f_attrs := f_attrs f;
             f_children := f_children f ++ [n] |} :: rest) top
  end.

Definition flush_text (acc : string) (stack : list frame) : list frame :=
  match acc, stack with
  | String _ _, f :: rest =>
      {| f_tag := f_tag f; f_attrs := f_attrs f;
         f_children := f_children f ++ [Text acc] |} :: rest
  | _, _ => stack
  end.

Definition is_element (n : node) : bool :=
  match n with Element _ _ _ => true | _ => false end.

Definition open_element (name : string) (attrs : list (string * string))
    (stack : list frame) (top : list node) : pstate :=
  PS (Content EmptyString)
     ({| f_tag := name; f_attrs := attrs; f_children := [] |} :: stack) top.

Definition close_element (name : string) (stack : list frame) (top : list node)
    : pstate :=
  match stack with
  | [] => Failed
  | f :: rest =>
      if decide (f_tag f = name)
      then add_child (Element name (f_attrs f) (f_children f)) rest top
      else Failed
  end.

Definition step_mode (m : lexer_mode) (stack : list frame) (top : list node)
    (c : ascii) : pstate :=
  match m with
  | Content acc =>
      if Ascii.eqb c "<" then PS TagOpen (flush_text acc stack) top
      else match stack with
           | [] => if is_space c then PS (Content EmptyString) [] top else Failed
           | _ :: _ =>
               if Ascii.eqb c "&" then PS (Reference acc EmptyString) stack top
               else if Ascii.eqb c ">" && ends_with_brackets acc then Failed
               else PS (Content (snoc acc c)) stack top
           end
  | Reference acc name =>
      if Ascii.eqb c ";" then
        match predefined_entity name with
        | Some d => PS (Content (snoc acc d)) stack top
        | None => Failed
        end
      else PS (Reference acc (snoc name c)) stack top
  | TagOpen =>
      if Ascii.eqb c "/" then
        match stack with
        | [] => Failed
        | _ :: _ => PS (EndName EmptyString) stack top
        end
      else if Ascii.eqb c "!" then PS Bang stack top
      else if is_name_start c then
        match stack with
        | [] => if existsb is_element top then Failed
                else PS (StartName (ch c)) stack top
        | _ :: _ => PS (StartName (ch c)) stack top
        end
      else Failed
  | StartName name =>
      if is_name_char c then PS (StartName (snoc name c)) stack top
      else if is_space c then PS (InTag name []) stack top
      else if Ascii.eqb c ">" then open_element name [] stack top
      else if Ascii.eqb c "/" then PS (EmptyTagEnd name []) stack top
      else Failed
  | InTag name attrs =>
      if is_space c then PS (InTag name attrs) stack top
      else if Ascii.eqb c ">" then open_element name attrs stack top
      else if Ascii.eqb c "/" then PS (EmptyTagEnd name attrs) stack top
      else if is_name_start c then PS (AttrName name attrs (ch c)) stack top
      else Failed
  | AttrName name attrs an =>
      if is_name_char c then PS (AttrName name attrs (snoc an c)) stack top
      else if Ascii.eqb c "=" then PS (AttrQuote name attrs an) stack top
      else if is_space c then PS (AttrEq name attrs an) stack top
      else Failed
  | AttrEq name attrs an =>
      if is_space c then PS (AttrEq name attrs an) stack top
      else if Ascii.eqb c "=" then PS (AttrQuote name attrs an) stack top
      else Failed
  | AttrQuote name attrs an =>
      if is_space c then PS (AttrQuote name attrs an) stack top
      else if Ascii.eqb c "034" || Ascii.eqb c "'"
      then PS (AttrValue name attrs an c EmptyString) stack top
      else Failed
  | AttrValue name attrs an q acc =>
      if Ascii.eqb c q then
        if existsb (λ p, bool_decide (p.1 = an)) attrs
           || bool_decide (an = "xmlns") then Failed
        else PS (AfterAttr name (attrs ++ [(an, acc)])) stack top
      else if Ascii.eqb c "<" then Failed
      else if Ascii.eqb c "&"
      then PS (AttrReference name attrs an q acc EmptyString) stack top
      else if is_space c then PS (AttrValue name attrs an q (snoc acc " ")) stack top
      else PS (AttrValue name attrs an q (snoc acc c)) stack top
  | AttrReference name attrs an q acc ref =>
      if Ascii.eqb c ";" then
        match predefined_entity ref with
        | Some d => PS (AttrValue name attrs an q (snoc acc d)) stack top
        | None => Failed
        end
      else PS (AttrReference name attrs an q acc (snoc ref c)) stack top
  | AfterAttr name attrs =>
      if is_space c then PS (InTag name attrs) stack top
      else if Ascii.eqb c ">" then open_element name attrs stack top
      else if Ascii.eqb c "/" then PS (EmptyTagEnd name attrs) stack top
      else Failed
  | EmptyTagEnd name attrs =>
      if Ascii.eqb c ">" then add_child (Element name attrs []) stack top
      else Failed
  | EndName name =>
      match name with
      | EmptyString =>
          if is_name_start c then PS (EndName (ch c)) stack top else Failed
      | String _ _ =>
          if is_name_char c then PS (EndName (snoc name c)) stack top
          else if is_space c then PS (EndSpace name) stack top
          else if Ascii.eqb c ">" then close_element name stack top
          else Failed
      end
  | EndSpace name =>
      if is_space c then PS (EndSpace name) stack top
      else if Ascii.eqb c ">" then close_element name stack top
      else Failed
  | Bang => if Ascii.eqb c "-" then PS BangDash stack top else Failed
  | BangDash =>
      if Ascii.eqb c "-" then PS (InComment EmptyString) stack top else Failed
  | InComment acc =>
      if Ascii.eqb c "-" then PS (CommentDash acc) stack top
      else PS (InComment (snoc acc c)) stack top
  | CommentDash acc =>
      if Ascii.eqb c "-" then PS (CommentDashDash acc) stack top
      else PS (InComment (snoc (snoc acc "-") c)) stack top
  | CommentDashDash acc =>
      if Ascii.eqb c ">" then add_child (Comment acc) stack top else Failed
  end.

Definition step (st : pstate) (c : ascii) : pstate :=
  match st with
  | Failed => Failed
  | PS m stack top => if xml_char c then step_mode m stack top c else Failed
  end.

Fixpoint run (st : pstate) (s : string) : pstate :=
  match s with
  | EmptyString => st
  | String c r => run (step st c) r
  end.

(** The children of the document, comments and exactly one element, when
    the input is a well-formed document of the modelled part of XML; [None]
    when the model does not parse it. *)
Definition parse_xml (s : string) : option (list node) :=
  match run (PS (Content EmptyString) [] []) (normalize_newlines s) with
  | PS (Content EmptyString) [] top =>
      if decide (length (filter (λ n, is_element n = true) top) = 1)
      then Some top else None
  | _ => None
  end.

(** [new DOMParser().parseFromString(s, 'text/xml')]: the document of the
    model where it parses [s], else the document [other] gives, which is
    the browser's. *)
Definition parseFromString (other : string → list node) (s : string) : list node :=
  match parse_xml s with
  | Some doc => doc
  | None => other s
  end.

(** The elements of a tree, in document order. *)
Fixpoint elements (n : node) : list node :=
  match n with
  | Element _ _ children => n :: concat (map elements children)
  | _ => []
  end.

Definition tagName (n : node) : string :=
  match n with Element t _ _ => t | _ => EmptyString end.

Definition getElementsByTagName (name : string) (doc : list node) : list node :=
  filter (λ n, tagName n = name) (concat (map elements doc)).

Fixpoint lookup_attr (name : string) (attrs : list (string * string))
    : option string :=
  match attrs with
  | [] => None
  | (a, v) :: rest => if decide (a = name) then Some v else lookup_attr name rest
  end.

(** [element.getAttribute(name)]; [None] is [null]. *)
Definition getAttribute (name : string) (n : node) : option string :=
  match n with
  | Element _ attrs _ => lookup_attr name attrs
  | _ => None
  end.

Fixpoint escape (quot : bool) (s : string) : string :=
  match s with
  | EmptyString => EmptyString
  | String c r =>
      (if Ascii.eqb c "&" then "&amp;"
       else if Ascii.eqb c "<" then "&lt;"
       else if Ascii.eqb c ">" then "&gt;"
       else if quot && Ascii.eqb c "034" then "&quot;"
       else ch c) +:+ escape quot r
  end.

Fixpoint join_strings (l : list string) : string :=
  match l with
  | [] => EmptyString
  | s :: rest => s +:+ join_strings rest
  end.

Definition serialize_attr (p : string * string) : string :=
  " " +:+ p.1 +:+ "=" +:+ dquote +:+ escape true p.2 +:+ dquote.

(** The XML serialisation of a node (DOM Parsing and Serialization). *)
Fixpoint serialize (n : node) : string :=
  match n with
  | Text d => escape false d
  | Comment d => "<!--" +:+ d +:+ "-->"
  | Element t attrs children =>
      "<" +:+ t +:+ join_strings (map serialize_attr attrs) +:+
      match children with
      | [] => "/>"
      | _ :: _ => ">" +:+ join_strings (map serialize children) +:+ "</" +:+ t +:+ ">"
      end
  end.

Definition innerHTML (n : node) : string :=
  match n with
  | Element _ _ children => join_strings (map serialize children)
  | _ => EmptyString
  end.

(** ** Loading a persisted state *)

(** The property key a value is converted to: [null] becomes the key null. *)
Definition property_key (v : option string) : string := default "null" v.

Definition load_element (e : CodeEditor) (element : node) : CodeEditor :=
  let language := getAttribute "value" element in
  let code' := innerHTML element in
  set_code (js_set (property_key language) code' (code e)) e.

Definition loadStateFromXml (xml : list node) (e : CodeEditor) : completion :=
  let languages := getElementsByTagName "language" xml in
  refreshEditor None (fold_left load_element languages e).

Definition loadStateFromXmlString (xmlString : string) (e : CodeEditor)
    : completion :=
  let xmlDoc := parseFromString (other_documents e) xmlString in
  loadStateFromXml xmlDoc e.

Definition getStateAsXml (e : CodeEditor) : list node :=
  parseFromString (other_documents e) (getStateAsXmlString e).

(** ** Push and save *)

Definition pushCode (e : CodeEditor) : completion :=
  if decide (language e ≠ "python") then Normal e
  else
    let code' := textarea (flask e) in
    match Kalebr e with
    | KalebrUndeclared => Throw ReferenceError e
    | KalebrWithoutConsole => Normal e
    | KalebrWithConsole => Normal (log_upload code' e)
    end.

Definition is_digit (c : ascii) : bool :=
  let n := nat_of_ascii c in (48 <=? n) && (n <=? 57).

Fixpoint digits_value (s : string) (acc : nat) : option nat :=
  match s with
  | EmptyString => Some acc
  | String c r =>
      if is_digit c then digits_value r (10 * acc + (nat_of_ascii c - 48))
      else None
  end.

(** The array index a property key denotes, if any: a decimal numeral
    without a leading zero. *)
Definition array_index (key : string) : option nat :=
  match key with
  | EmptyString => None
  | String c r =>
      if Ascii.eqb c "0"
      then match r with EmptyString => Some 0 | _ => None end
      else digits_value key 0
  end.

(** [s[key]] on a string: the character at that index as a string, or
    [undefined], which [+] turns into the text undefined. *)
Definition string_at (s : string) (i : nat) : string :=
  match String.get i s with
  | Some c => ch c
  | None => "undefined"
  end.

(** [saveCode(fileName)]. [this.languages[this.language]] reads the array of
    descriptors under the language identifier as property key. Under a key
    that is no index of the array the lookup yields [undefined] or a member of
    the array prototype, and then either [.extension] or the indexing of
    [extension] throws a TypeError before [saveAs] is reached. *)
Definition saveCode (fileName : string) (e : CodeEditor) : completion :=
  let code' := textarea (flask e) in
  match array_index (language e) with
  | None => Throw TypeError e
  | Some i =>
      match languages !! i with
      | None => Throw TypeError e
      | Some d =>
          let extension' := extension d in
          Normal (log_saveAs code' (fileName +:+ string_at extension' i) e)
      end
  end.

(** ** Construction *)

(** What the browser and the engine add to the editor: how the text area
    reads back a text given to it, and the documents of the inputs that the
    model does not parse. *)
Record Browser := {
  browser_textarea_value : string → string;
  browser_other_documents : string → list node
}.

(** The document a failed parse results in by the HTML Standard: its only
    element is named parsererror. Engines differ here, some keep the nodes
    read before the error. *)
Definition parsererror_document : list node :=
  [Element "parsererror" [] []].

(** A browser for the examples: its text area normalises newlines and
    changes nothing else, and every input that the model does not parse
    gives the document of a failed parse. *)
Definition example_browser : Browser :=
  {| browser_textarea_value := normalize_newlines;
     browser_other_documents := λ _, parsererror_document |}.

(** The object as the constructor leaves it: no code, python selected, no
    listeners, the engine refreshed for python. *)
Definition new_CodeEditor (browser : Browser) (host : KalebrGlobal) : CodeEditor :=
  editor_of (refreshEditor (Some "python")
    {| language := "python"; code := ∅; listeners_ := [];
       flask := {| flask_language := EmptyString; textarea := EmptyString;
                   textarea_readOnly := false; onUpdate_language := None;
                   textarea_value := browser_textarea_value browser |};
       pushDisabled := false; Kalebr := host; uploads := []; saved := [];
       other_documents := browser_other_documents browser |}).

(** ** Change listeners *)

Definition addChangeListener (func : listener) (e : CodeEditor)
    : listener * CodeEditor :=
  (func, set_listeners (listeners_ e ++ [func]) e).

Section Listeners.

(** What calling a listener that returns does to the editor. A listener is
    free to change the object, its list of listeners included. Listeners
    that may throw are in the next section. *)
Variable listener_body : listener → event → CodeEditor → CodeEditor.

(** The loop of [fireChangeListener] over [currentListeners]; the result
    lists the listeners called, in the order of the calls. The entries are
    functions, hence truthy, so the loop ends at the end of the array. *)
Fixpoint fire_loop (currentListeners : list listener) (ev : event)
    (e : CodeEditor) : list listener * CodeEditor :=
  match currentListeners with
  | [] => ([], e)
  | func :: rest =>
      let e1 := listener_body func ev e in
      let r := fire_loop rest ev e1 in
      (func :: r.1, r.2)
  end.

Definition fireChangeListener (ev : event) (e : CodeEditor)
    : list listener * CodeEditor :=
  let currentListeners := listeners_ e in
  fire_loop currentListeners ev e.

Definition changeLanguage (l : string) (e : CodeEditor) : completion :=
  let e1 := set_language l e in
  and_then (refreshEditor (Some l) e1) (λ e2,
    let e3 := updatePushButtonStatus l e2 in
    Normal (fireChangeListener (LANGUAGE_SELECTED l) e3).2).

(** The engine reports an edit: the text area now holds [c], the value it
    reports, and the update callback registered by the last refresh stores
    it and fires. *)
Definition flask_input (c : string) (e : CodeEditor) : CodeEditor :=
  let f := flask e in
  let e1 := set_flask {| flask_language := flask_language f; textarea := c;
                         textarea_readOnly := textarea_readOnly f;
                         onUpdate_language := onUpdate_language f;
                         textarea_value := textarea_value f |} e in
  match onUpdate_language f with
  | None => e1
  | Some l =>
      (fireChangeListener CODE_UPDATED (set_code (js_set l c (code e1)) e1)).2
  end.

End Listeners.

Section ListenerCalls.

(** The call of a listener as a method call: it returns or throws. *)
Variable listener_call : listener → event → CodeEditor → completion.

(** The loop of [fireChangeListener] when listeners may throw: nothing
    catches, so the first throw ends the loop and is the outcome of the
    firing. The result lists the listeners called, in the order of the
    calls. *)
Fixpoint fire_loop_calls (currentListeners : list listener) (ev : event)
    (e : CodeEditor) : list listener * completion :=
  match currentListeners with
  | [] => ([], Normal e)
  | func :: rest =>
      match listener_call func ev e with
      | Normal e1 =>
          let r := fire_loop_calls rest ev e1 in
          (func :: r.1, r.2)
      | Throw x e1 => ([func], Throw x e1)
      end
  end.

Definition fireChangeListener_calls (ev : event) (e : CodeEditor)
    : list listener * completion :=
  let currentListeners := listeners_ e in
  fire_loop_calls currentListeners ev e.

End ListenerCalls.

(** ** Notions used in the statements *)

(** The languages whose buffers are persisted, in the order of the
    configured list. *)
Definition saved_languages : list string := ["python"; "javascript"; "arduino"].

(** The persisted state as the source builds it from three buffer texts. *)
Definition state_string (python javascript arduino : string) : string :=
  "<editor>" +:+ language_element "python" python
    +:+ language_element "javascript" javascript
    +:+ language_element "arduino" arduino +:+ "</editor>".

(** The element in the format the specification prints: no space before the
    end of the start tag. *)
Definition spec_language_element (l c : string) : string :=
  "<language value=" +:+ dquote +:+ l +:+ dquote +:+ ">" +:+ c +:+ "</language>".

Definition spec_state_string (e : CodeEditor) : string :=
  "<editor>" +:+ spec_language_element "python" (buffer e "python")
    +:+ spec_language_element "javascript" (buffer e "javascript")
    +:+ spec_language_element "arduino" (buffer e "arduino") +:+ "</editor>".

Fixpoint string_forall (P : ascii → bool) (s : string) : bool :=
  match s with
  | EmptyString => true
  | String c r => P c && string_forall P r
  end.

(** Character data that is the same before and after a parse and a
    serialisation: ASCII characters that are legal in XML, other than the
    markup characters, the closing angle bracket (serialised as a reference)
    and the carriage return (normalised to a line feed). *)
Definition plain_char (c : ascii) : bool :=
  xml_char c && negb (Ascii.eqb c "<") && negb (Ascii.eqb c "&")
    && negb (Ascii.eqb c ">") && negb (Ascii.eqb c "013").

Definition plain (s : string) : bool := string_forall plain_char s.

(** The children character data gives an element: none when it is empty. *)
Definition text_nodes (s : string) : list node :=
  match s with
  | EmptyString => []
  | String _ _ => [Text s]
  end.

(** The outermost requirement of the persisted state format: the document
    element is named editor. *)
Definition is_editor_document (doc : list node) : bool :=
  existsb (λ n, is_element n && bool_decide (tagName n = "editor")) doc.

(** A text without an opening angle bracket. *)
Definition no_lt (s : string) : bool :=
  string_forall (λ c, negb (Ascii.eqb c "<")) s.

(** The calls of a list of listeners in turn, each on the editor the
    previous one left, up to the first that throws. *)
Definition call_in_turn (call : listener → event → CodeEditor → completion)
    (ev : event) (fs : list listener) (c : completion) : completion :=
  fold_left (λ c f, and_then c (call f ev)) fs c.

(** The assignments [loadStateFromXml] performs, one per element. *)
Definition stores (ls : list node) : list (string * string) :=
  map (λ n, (property_key (getAttribute "value" n), innerHTML n)) ls.

(** Registering a list of listeners, one call of [addChangeListener] each. *)
Definition register_all (fs : list listener) (e : CodeEditor) : CodeEditor :=
  fold_left (λ e f, (addChangeListener f e).2) fs e.

(** ** Notions used for the editor in operation *)

(** The language [refreshEditor] settles on: its argument when that is a
    non-empty string, else the selected language, else python. *)
Definition resolved_language (l : option string) (e : CodeEditor) : string :=
  js_or l (js_or (Some (language e)) "python").

(** The engine after a refresh for a language with descriptor [d], with the
    text [t] in the text area. *)
Definition rendered (d : LanguageDescriptor) (l t : string) (e : CodeEditor) : Flask :=
  {| flask_language := js_or (syntax d) l;
     textarea := t;
     textarea_readOnly := default false (readOnly d);
     onUpdate_language := Some l;
     textarea_value := textarea_value (flask e) |}.

(** The editor shows its selected language: the language is configured, the
    engine is as a refresh for it leaves it, the text area holding the buffer
    of the language, either as the engine reported it in an edit or as the
    text area reads it back, and the push button is disabled exactly when
    the language is not python. *)
Definition consistent (e : CodeEditor) : Prop :=
  ∃ d t, getLanguageAttributes (language e) = Some d
         ∧ flask e = rendered d (language e) t e
         ∧ (t = buffer e (language e)
            ∨ t = textarea_value (flask e) (buffer e (language e)))
         ∧ pushDisabled e = negb (bool_decide (language e = "python")).

(** A listener that observes: it changes neither the selected language, nor
    the buffers, nor the engine, nor the push button. It may change the list
    of listeners. *)
Definition observer (body : listener → event → CodeEditor → CodeEditor) : Prop :=
  ∀ f ev e,
    language (body f ev e) = language e
    ∧ code (body f ev e) = code e
    ∧ flask (body f ev e) = flask e
    ∧ pushDisabled (body f ev e) = pushDisabled e.

(** The editors reached from a new one by the operations the page offers:
    selecting one of the options, typing, loading a state, clearing,
    refreshing, storing code for a language that is not shown, pushing,
    saving and registering a listener. A method that throws leaves the
    editor as it was at the throw. *)
Inductive reachable (body : listener → event → CodeEditor → CodeEditor)
    (host : KalebrGlobal) : CodeEditor → Prop :=
  | reach_new browser : reachable body host (new_CodeEditor browser host)
  | reach_changeLanguage l e :
      reachable body host e → l ∈ map value languages →
      reachable body host (editor_of (changeLanguage body l e))
  | reach_input c e :
      reachable body host e → reachable body host (flask_input body c e)
  | reach_load xmlString e :
      reachable body host e →
      reachable body host (editor_of (loadStateFromXmlString xmlString e))
  | reach_clear e :
      reachable body host e → reachable body host (editor_of (clear e))
  | reach_refresh e :
      reachable body host e → reachable body host (editor_of (refreshEditor None e))
  | reach_addCode c l e :
      reachable body host e → l ≠ language e →
      reachable body host (addCodeToEditor c l e)
  | reach_push e :
      reachable body host e → reachable body host (editor_of (pushCode e))
  | reach_save fileName e :
      reachable body host e → reachable body host (editor_of (saveCode fileName e))
  | reach_listener f e :
      reachable body host e → reachable body host (addChangeListener f e).2.

(** * Properties *)

(** ** Strings *)

Lemma app_cons (c : ascii) (s t : string) : String c s +:+ t = String c (s +:+ t).
Proof. reflexivity. Qed.

Lemma app_nil_r (s : string) : s +:+ EmptyString = s.
Proof. induction s as [|c s IH]; [reflexivity|]. by rewrite app_cons, IH. Qed.

Lemma app_assoc (a b c : string) : (a +:+ b) +:+ c = a +:+ (b +:+ c).
Proof. induction a as [|x a IH]; [reflexivity|]. by rewrite !app_cons, IH. Qed.

Lemma string_forall_app (P : ascii → bool) (a b : string) :
  string_forall P (a +:+ b) = string_forall P a && string_forall P b.
Proof.
  induction a as [|x a IH]; [reflexivity|].
  rewrite app_cons. cbn [string_forall]. rewrite IH. by rewrite andb_assoc.
Qed.

Lemma string_forall_impl (P Q : ascii → bool) (s : string) :
  (∀ c, P c = true → Q c = true) →
  string_forall P s = true → string_forall Q s = true.
Proof.
  intros HPQ. induction s as [|c s IH]; [done|].
  cbn [string_forall]. rewrite !andb_true_iff. intros [Hc Hs]. auto.
Qed.

(** ** Assignments to the buffer object *)

Lemma js_set_lookup_ne (k v j : string) (m : gmap string string) :
  k ≠ j → js_set k v m !! j = m !! j.
Proof.
  intros Hne. unfold js_set. destruct (decide _); [done|].
  by rewrite lookup_insert_ne.
Qed.

Lemma js_set_lookup_eq (k v : string) (m : gmap string string) :
  k ≠ "__proto__" → js_set k v m !! k = Some v.
Proof.
  intros Hne. unfold js_set. destruct (decide _); [done|].
  apply lookup_insert_eq.
Qed.

Lemma js_set_insert (k v : string) (m : gmap string string) :
  k ≠ "__proto__" → js_set k v m = <[k := v]> m.
Proof. intros Hne. unfold js_set. by destruct (decide _). Qed.

Lemma js_set_proto (v : string) (m : gmap string string) :
  js_set "__proto__" v m = m.
Proof. reflexivity. Qed.

(** ** The serialised state *)

Lemma js_or_idemp (a : option string) :
  js_or (Some (js_or a EmptyString)) EmptyString = js_or a EmptyString.
Proof. by destruct a as [[|c s]|]. Qed.

Lemma getStateAsXmlString_unfold (e : CodeEditor) :
  getStateAsXmlString e =
  state_string (buffer e "python") (buffer e "javascript") (buffer e "arduino").
Proof.
  unfold getStateAsXmlString, state_string.
  change (map (language_node e) languages)
    with [Some (language_element "python" (buffer e "python"));
          Some (language_element "javascript" (buffer e "javascript"));
          Some (language_element "arduino" (buffer e "arduino")); None].
  cbn [join_empty default]. rewrite !app_assoc. reflexivity.
Qed.

Lemma refreshEditor_code (l : option string) (e : CodeEditor) :
  code (editor_of (refreshEditor l e)) = code e.
Proof. unfold refreshEditor. by destruct (getLanguageAttributes _). Qed.

Lemma buffer_empty (e : CodeEditor) (l : string) :
  code e = ∅ → buffer e l = EmptyString.
Proof. unfold buffer. intros ->. by rewrite lookup_empty. Qed.

Lemma buffer_addCodeToEditor_ne (c k l : string) (e : CodeEditor) :
  k ≠ l → buffer (addCodeToEditor c k e) l = buffer e l.
Proof. intros Hne. unfold buffer, addCodeToEditor. cbn. by rewrite js_set_lookup_ne. Qed.

(** C2 (as amended). For every editor, getStateAsXmlString is the editor
    element holding, for python, javascript and arduino in this order, one
    element made of the start tag with the identifier as value attribute and
    a space before its closing bracket, the stored code verbatim, and the end
    tag; nothing else. *)
Theorem getStateAsXmlString_format (e : CodeEditor) :
  getStateAsXmlString e =
  "<editor>"
    +:+ ("<language value=" +:+ dquote +:+ "python" +:+ dquote +:+ " >"
           +:+ buffer e "python" +:+ "</language>")
    +:+ ("<language value=" +:+ dquote +:+ "javascript" +:+ dquote +:+ " >"
           +:+ buffer e "javascript" +:+ "</language>")
    +:+ ("<language value=" +:+ dquote +:+ "arduino" +:+ dquote +:+ " >"
           +:+ buffer e "arduino" +:+ "</language>")
    +:+ "</editor>".
Proof. apply getStateAsXmlString_unfold. Qed.

(** C2, refuted as stated: for the editor just constructed the serialised
    state is not the string in the format without the space. *)
Lemma getStateAsXmlString_not_spec_format :
  getStateAsXmlString (new_CodeEditor example_browser KalebrWithConsole)
  ≠ spec_state_string (new_CodeEditor example_browser KalebrWithConsole).
Proof. vm_compute. discriminate. Qed.

(** C9. After clear, whatever the editor held, getStateAsXmlString is the
    editor element with the three elements for python, javascript and
    arduino, each with an empty body; read back as a document, these are its
    language elements and each has an empty innerHTML. *)
Theorem clear_then_getStateAsXmlString (e : CodeEditor) :
  let e' := editor_of (clear e) in
  getStateAsXmlString e' = state_string EmptyString EmptyString EmptyString
  ∧ map (λ n, (getAttribute "value" n, innerHTML n))
        (getElementsByTagName "language" (getStateAsXml e'))
    = [(Some "python", EmptyString); (Some "javascript", EmptyString);
       (Some "arduino", EmptyString)].
Proof.
  intros e'.
  assert (Hs : getStateAsXmlString e'
               = state_string EmptyString EmptyString EmptyString).
  { rewrite getStateAsXmlString_unfold.
    assert (Hc : code e' = ∅) by apply refreshEditor_code.
    by rewrite !buffer_empty. }
  split; [exact Hs|]. unfold getStateAsXml. rewrite Hs. by vm_compute.
Qed.

(** C10. The serialised state is a function of the python, javascript and
    arduino buffers alone, which it lists in this order: editors that agree
    on these three buffers serialise alike, and storing code under any other
    key leaves the serialised state as it was. *)
Theorem getStateAsXmlString_saved_buffers_only
    (e e' : CodeEditor) (c k : string) :
  buffer e' "python" = buffer e "python" →
  buffer e' "javascript" = buffer e "javascript" →
  buffer e' "arduino" = buffer e "arduino" →
  k ∉ saved_languages →
  getStateAsXmlString e' = getStateAsXmlString e
  ∧ getStateAsXmlString e
    = state_string (buffer e "python") (buffer e "javascript") (buffer e "arduino")
  ∧ getStateAsXmlString (addCodeToEditor c k e) = getStateAsXmlString e.
Proof.
  intros Hp Hj Ha Hk. rewrite !getStateAsXmlString_unfold, Hp, Hj, Ha.
  split; [done|]. split; [done|].
  unfold saved_languages in Hk.
  rewrite !buffer_addCodeToEditor_ne; [done|..];
    intros ->; apply Hk; set_solver.
Qed.

Lemma getStateAsXmlString_saved_buffers_only_witness :
  let e := addCodeToEditor "x = 1" "python" (new_CodeEditor example_browser KalebrWithConsole) in
  let e' := addCodeToEditor "BEGIN" "blockly" e in
  getStateAsXmlString e' = getStateAsXmlString e
  ∧ getStateAsXmlString e
    = state_string (buffer e "python") (buffer e "javascript") (buffer e "arduino")
  ∧ getStateAsXmlString (addCodeToEditor "puts 1" "ruby" e) = getStateAsXmlString e.
Proof.
  intros e e'.
  apply (getStateAsXmlString_saved_buffers_only e e' "puts 1" "ruby");
    [reflexivity | reflexivity | reflexivity |].
  unfold saved_languages. rewrite !not_elem_of_cons.
  repeat split; [discriminate ..|]. apply not_elem_of_nil.
Defined.

(** Loading a state that names a language the editor does not know stores
    its body, and the serialised state does not show it. *)
Example getStateAsXmlString_after_unknown_language :
  let e := new_CodeEditor example_browser KalebrWithConsole in
  let e' := editor_of (loadStateFromXmlString
              "<editor><language value='ruby'>puts 1</language></editor>" e) in
  code e' !! "ruby" = Some "puts 1"
  ∧ getStateAsXmlString e' = getStateAsXmlString e.
Proof. by vm_compute. Qed.

(** ** Saving *)

Lemma configured_cases (l : string) :
  l ∈ map value languages →
  l = "python" ∨ l = "javascript" ∨ l = "arduino" ∨ l = "blockly".
Proof.
  cbn [map languages value]. rewrite !elem_of_cons, elem_of_nil. tauto.
Qed.

(** For every configured language the lookup of the descriptor in [saveCode]
    fails, and nothing is handed to [saveAs]. *)
Lemma saveCode_configured_throws (fileName : string) (e : CodeEditor) :
  language e ∈ map value languages → saveCode fileName e = Throw TypeError e.
Proof.
  intros H. unfold saveCode.
  destruct (configured_cases _ H) as [->|[->|[->| ->]]]; reflexivity.
Qed.

(** C3, the code at the input of the claim: with javascript selected,
    saveCode of the name proj throws a TypeError and no call of saveAs is
    made, so no save under the name proj.js is requested. *)
Theorem saveCode_javascript_throws :
  let e := editor_of (changeLanguage (λ _ _ e, e) "javascript"
                        (new_CodeEditor example_browser KalebrWithConsole)) in
  getSelectedLanguage e = "javascript"
  ∧ saveCode "proj" e = Throw TypeError e
  ∧ saved (editor_of (saveCode "proj" e)) = [].
Proof. by vm_compute. Qed.

(** ** Pushing *)

Lemma refreshEditor_textarea (l : option string) (e0 e : CodeEditor) :
  refreshEditor l e0 = Normal e →
  textarea (flask e)
  = textarea_value (flask e)
      (buffer e (js_or l (js_or (Some (language e0)) "python")))
  ∧ language e = language e0.
Proof.
  unfold refreshEditor. destruct (getLanguageAttributes _); [|done].
  intros [= <-]. done.
Qed.

(** C5 (as amended). pushCode uploads nothing unless python is selected.
    With python selected and the console of the host present it makes one
    call of upload, with the content of the text area of the engine; when
    the editor was last refreshed for its selected language, that content is
    the python buffer as the text area reads it back. *)
Theorem pushCode_uploads_textarea (e : CodeEditor) :
  (language e ≠ "python" → pushCode e = Normal e)
  ∧ (language e = "python" → Kalebr e = KalebrWithConsole →
     pushCode e = Normal (log_upload (textarea (flask e)) e)
     ∧ uploads (editor_of (pushCode e)) = uploads e ++ [textarea (flask e)])
  ∧ (language e = "python" → Kalebr e = KalebrWithConsole →
     ∀ e0, refreshEditor None e0 = Normal e →
     uploads (editor_of (pushCode e))
     = uploads e ++ [textarea_value (flask e) (buffer e "python")]).
Proof.
  unfold pushCode. split; [|split].
  - intros Hl. by destruct (decide _).
  - intros Hl ->. destruct (decide _) as [Hne|_]; [by destruct Hne|]. done.
  - intros Hl -> e0 Hr. destruct (decide _) as [Hne|_]; [by destruct Hne|].
    destruct (refreshEditor_textarea _ _ _ Hr) as [-> Hl0].
    rewrite <- Hl0, Hl. reflexivity.
Qed.

Lemma pushCode_uploads_textarea_witness :
  let js := set_language "javascript" (new_CodeEditor example_browser KalebrWithConsole) in
  let py := editor_of (refreshEditor None
              (addCodeToEditor "print(1)" "python"
                 (new_CodeEditor example_browser KalebrWithConsole))) in
  pushCode js = Normal js
  ∧ uploads (editor_of (pushCode py)) = ["print(1)"].
Proof.
  intros js py. split.
  - apply (pushCode_uploads_textarea js). vm_compute. discriminate.
  - apply (proj2 (proj2 (pushCode_uploads_textarea py)) eq_refl eq_refl
             (addCodeToEditor "print(1)" "python"
                (new_CodeEditor example_browser KalebrWithConsole))).
    reflexivity.
Defined.

(** C5, refuted as stated: after addCodeToEditor stored code for python in
    the editor just constructed, python is selected and the console is
    present, yet pushCode uploads the empty text of the text area and not
    the python buffer. *)
Lemma pushCode_not_buffer :
  let e := addCodeToEditor "print(1)" "python" (new_CodeEditor example_browser KalebrWithConsole) in
  getSelectedLanguage e = "python"
  ∧ buffer e "python" = "print(1)"
  ∧ uploads (editor_of (pushCode e)) = [EmptyString]
  ∧ uploads (editor_of (pushCode e)) ≠ uploads e ++ [buffer e "python"].
Proof. vm_compute. repeat split; discriminate. Qed.

(** After a refresh the upload need not be the python buffer either: in a
    browser whose text area normalises newlines, a buffer with a carriage
    return is uploaded with line feeds only. *)
Example pushCode_after_refresh_normalised :
  let c := "a" +:+ String "013" (String "010" "b") in
  let e := editor_of (refreshEditor None
             (addCodeToEditor c "python"
                (new_CodeEditor example_browser KalebrWithConsole))) in
  buffer e "python" = c
  ∧ uploads (editor_of (pushCode e)) = ["a" +:+ String "010" "b"]
  ∧ uploads (editor_of (pushCode e)) ≠ [buffer e "python"].
Proof. vm_compute. repeat split. discriminate. Qed.

(** ** Listeners *)

Lemma fire_loop_invoked (body : listener → event → CodeEditor → CodeEditor)
    (ls : list listener) (ev : event) (e : CodeEditor) :
  (fire_loop body ls ev e).1 = ls.
Proof.
  revert e. induction ls as [|f ls IH]; intros e; [done|].
  cbn [fire_loop fst]. by rewrite IH.
Qed.

Lemma register_all_listeners (fs : list listener) (e : CodeEditor) :
  listeners_ (register_all fs e) = listeners_ e ++ fs.
Proof.
  revert e. induction fs as [|f fs IH]; intros e.
  - cbn. by rewrite List.app_nil_r.
  - cbn [register_all fold_left]. fold (register_all fs).
    rewrite IH. cbn. by rewrite <- List.app_assoc.
Qed.

Lemma fire_loop_language (body : listener → event → CodeEditor → CodeEditor)
    (ls : list listener) (ev : event) (e : CodeEditor) :
  (∀ f ev e, language (body f ev e) = language e) →
  language (fire_loop body ls ev e).2 = language e.
Proof.
  intros Hbody. revert e. induction ls as [|f ls IH]; intros e; [done|].
  cbn [fire_loop snd]. by rewrite IH, Hbody.
Qed.

Lemma fire_loop_fold (body : listener → event → CodeEditor → CodeEditor)
    (ls : list listener) (ev : event) (e : CodeEditor) :
  fire_loop body ls ev e = (ls, fold_left (λ e f, body f ev e) ls e).
Proof.
  revert e. induction ls as [|f ls IH]; intros e; [done|].
  cbn [fire_loop fold_left]. by rewrite IH.
Qed.

Lemma call_in_turn_Throw (call : listener → event → CodeEditor → completion)
    (ev : event) (fs : list listener) (x : exn) (e : CodeEditor) :
  call_in_turn call ev fs (Throw x e) = Throw x e.
Proof. unfold call_in_turn. induction fs as [|f fs IH]; [done|]. exact IH. Qed.

Lemma call_in_turn_cons (call : listener → event → CodeEditor → completion)
    (ev : event) (f : listener) (fs : list listener) (e : CodeEditor) :
  call_in_turn call ev (f :: fs) (Normal e) = call_in_turn call ev fs (call f ev e).
Proof. reflexivity. Qed.

(** For listeners that return, the two forms of the loop agree. *)
Lemma fire_loop_calls_returning
    (body : listener → event → CodeEditor → CodeEditor)
    (ls : list listener) (ev : event) (e : CodeEditor) :
  fire_loop_calls (λ f ev e, Normal (body f ev e)) ls ev e
  = ((fire_loop body ls ev e).1, Normal (fire_loop body ls ev e).2).
Proof.
  revert e. induction ls as [|f ls IH]; intros e; [done|].
  cbn [fire_loop_calls fire_loop fst snd]. by rewrite IH.
Qed.

Lemma fire_loop_calls_outcome
    (call : listener → event → CodeEditor → completion)
    (ls : list listener) (ev : event) (e : CodeEditor) :
  let r := fire_loop_calls call ls ev e in
  r.2 = call_in_turn call ev ls (Normal e)
  ∧ (∀ e', r.2 = Normal e' → r.1 = ls)
  ∧ (∀ x e', r.2 = Throw x e' →
       ∃ pre f post e1,
         ls = pre ++ f :: post ∧ r.1 = pre ++ [f]
         ∧ call_in_turn call ev pre (Normal e) = Normal e1
         ∧ call f ev e1 = Throw x e').
Proof.
  revert e. induction ls as [|f ls IH]; intros e.
  - cbn. split; [done|]. split; [done|]. intros x e' [=].
  - cbn [fire_loop_calls]. rewrite call_in_turn_cons.
    destruct (call f ev e) as [e1|x1 e1] eqn:Hf.
    + destruct (IH e1) as (Hfold & Hn & Ht). cbn [fst snd].
      split; [exact Hfold|]. split.
      * intros e' He'. by rewrite (Hn e' He').
      * intros x e' He'.
        destruct (Ht x e' He') as (pre & g & post & e2 & -> & Hcalls & Hpre & Hg).
        exists (f :: pre), g, post, e2. rewrite Hcalls.
        rewrite call_in_turn_cons, Hf. done.
    + cbn [fst snd]. rewrite call_in_turn_Throw.
      split; [done|]. split; [intros e' [=]|].
      intros x e' [= <- <-]. by exists [], f, ls, e.
Qed.

(** C7 (as amended). A firing goes through the listeners registered before
    it, in the order of registration, each registration once, whatever the
    listeners do to the list of listeners when called: its outcome is that
    of calling them in turn, each on the editor the previous one left. When
    every call returns, the listeners called are exactly these. When a call
    throws, the firing ends with that throw: the listeners called are those
    up to the one that threw, and no later one is called. For listeners that
    return, the editor after the firing is the result of the calls in
    turn. *)
Theorem fireChangeListener_snapshot
    (call : listener → event → CodeEditor → completion)
    (body : listener → event → CodeEditor → CodeEditor)
    (ev : event) (e : CodeEditor) (fs : list listener) :
  let e0 := register_all fs e in
  let snapshot := listeners_ e ++ fs in
  let r := fireChangeListener_calls call ev e0 in
  r.2 = call_in_turn call ev snapshot (Normal e0)
  ∧ (∀ e', r.2 = Normal e' → r.1 = snapshot)
  ∧ (∀ x e', r.2 = Throw x e' →
       ∃ pre f post e1,
         snapshot = pre ++ f :: post ∧ r.1 = pre ++ [f]
         ∧ call_in_turn call ev pre (Normal e0) = Normal e1
         ∧ call f ev e1 = Throw x e')
  ∧ fireChangeListener body ev e0
    = (snapshot, fold_left (λ e f, body f ev e) snapshot e0).
Proof.
  intros e0 snapshot r.
  assert (Hs : listeners_ e0 = snapshot) by apply register_all_listeners.
  pose proof (fire_loop_calls_outcome call (listeners_ e0) ev e0) as H.
  cbn zeta in H. rewrite Hs in H. destruct H as (H1 & H2 & H3).
  unfold r, fireChangeListener_calls. rewrite Hs.
  split; [exact H1|]. split; [exact H2|]. split; [exact H3|].
  unfold fireChangeListener. rewrite Hs. apply fire_loop_fold.
Qed.

Lemma fireChangeListener_snapshot_witness :
  (fireChangeListener_calls (λ f _ e, Normal (addChangeListener (S f) e).2)
     CODE_UPDATED
     (register_all [1; 2; 3] (new_CodeEditor example_browser KalebrWithConsole))).1
  = [1; 2; 3].
Proof.
  eapply (proj1 (proj2 (fireChangeListener_snapshot
            (λ f _ e, Normal (addChangeListener (S f) e).2) (λ _ _ e, e)
            CODE_UPDATED (new_CodeEditor example_browser KalebrWithConsole)
            [1; 2; 3]))).
  reflexivity.
Defined.

(** C7, refuted as stated: of three registered listeners the second throws;
    the firing calls the first two and not the third. *)
Lemma fireChangeListener_throwing_listener :
  let call (f : listener) (ev : event) (e : CodeEditor) :=
    match f with
    | 2 => Throw TypeError e
    | _ => Normal e
    end in
  let r := fireChangeListener_calls call CODE_UPDATED
             (register_all [1; 2; 3]
                (new_CodeEditor example_browser KalebrWithConsole)) in
  r.1 = [1; 2] ∧ r.1 ≠ [1; 2; 3].
Proof. vm_compute. split; [reflexivity|discriminate]. Qed.

(** A firing in which the first listener registers another one and the
    second removes every listener: the three listeners registered before the
    firing are called, and the list is empty afterwards. *)
Example fireChangeListener_changing_listeners :
  let body (f : listener) (ev : event) (e : CodeEditor) :=
    match f with
    | 1 => (addChangeListener 7 e).2
    | 2 => set_listeners [] e
    | _ => e
    end in
  let r := fireChangeListener body CODE_UPDATED
             (register_all [1; 2; 3] (new_CodeEditor example_browser KalebrWithConsole)) in
  r.1 = [1; 2; 3] ∧ listeners_ r.2 = [].
Proof. by vm_compute. Qed.

(** ** Selecting a language *)

Lemma getLanguageAttributes_configured (l : string) :
  l ∈ map value languages →
  ∃ d, getLanguageAttributes l = Some d ∧ js_or (Some l) "python" = l.
Proof.
  intros H. destruct (configured_cases _ H) as [->|[->|[->| ->]]];
    eexists; split; reflexivity.
Qed.

(** C8. For a configured language identifier, changeLanguage returns and
    getSelectedLanguage then yields that identifier, as long as no listener
    called for the change selects another language itself. *)
Theorem changeLanguage_getSelectedLanguage
    (body : listener → event → CodeEditor → CodeEditor)
    (l : string) (e : CodeEditor) :
  (∀ f ev e, language (body f ev e) = language e) →
  l ∈ map value languages →
  ∃ e', changeLanguage body l e = Normal e' ∧ getSelectedLanguage e' = l.
Proof.
  intros Hbody Hl.
  destruct (getLanguageAttributes_configured l Hl) as (d & Hd & Hor).
  unfold changeLanguage, refreshEditor.
  assert (Hjs : ∀ b, js_or (Some l) b = l).
  { intros b. destruct l; [discriminate Hor | reflexivity]. }
  rewrite Hjs, Hd. cbn [and_then]. eexists. split; [reflexivity|].
  unfold getSelectedLanguage, fireChangeListener.
  by rewrite fire_loop_language.
Qed.

Lemma changeLanguage_getSelectedLanguage_witness :
  ∃ e', changeLanguage (λ f _ e, (addChangeListener (S f) e).2) "javascript"
          (register_all [1; 2] (new_CodeEditor example_browser KalebrWithConsole)) = Normal e'
        ∧ getSelectedLanguage e' = "javascript".
Proof.
  apply changeLanguage_getSelectedLanguage.
  - intros f ev e. reflexivity.
  - cbn [map languages value]. rewrite !elem_of_cons. tauto.
Defined.

(** ** Loading *)

Lemma fold_load_element_code (ls : list node) (e : CodeEditor) :
  code (fold_left load_element ls e)
  = fold_left (λ m kv, js_set kv.1 kv.2 m) (stores ls) (code e).
Proof.
  revert e. induction ls as [|n ls IH]; intros e; [done|].
  cbn [fold_left stores map]. fold (stores ls). by rewrite IH.
Qed.

Lemma loadStateFromXml_code (xml : list node) (e : CodeEditor) :
  code (editor_of (loadStateFromXml xml e))
  = fold_left (λ m kv, js_set kv.1 kv.2 m)
      (stores (getElementsByTagName "language" xml)) (code e).
Proof.
  unfold loadStateFromXml. by rewrite refreshEditor_code, fold_load_element_code.
Qed.

Lemma fold_js_set_lookup_ne (kvs : list (string * string))
    (m : gmap string string) (v : string) :
  Forall (λ kv, kv.1 ≠ v) kvs →
  fold_left (λ m kv, js_set kv.1 kv.2 m) kvs m !! v = m !! v.
Proof.
  revert m. induction kvs as [|kv kvs IH]; intros m Hall; [done|].
  inversion Hall as [|? ? Hne Hrest]; subst.
  cbn [fold_left]. rewrite IH by done. by rewrite js_set_lookup_ne.
Qed.

(** The assignments that store: those under a key other than [__proto__]. *)
Lemma fold_js_set_filter (kvs : list (string * string)) (m : gmap string string) :
  fold_left (λ m kv, js_set kv.1 kv.2 m) kvs m
  = fold_left (λ m kv, <[kv.1 := kv.2]> m)
      (filter (λ kv, kv.1 ≠ "__proto__") kvs) m.
Proof.
  revert m. induction kvs as [|[k v] kvs IH]; intros m; [done|].
  cbn [fold_left fst snd]. rewrite filter_cons. cbn [fst].
  unfold js_set at 2. destruct (decide (k = "__proto__")) as [->|Hne].
  - rewrite decide_False by (intros H; by apply H). apply IH.
  - rewrite decide_True by done. cbn [fold_left fst snd]. apply IH.
Qed.

Lemma js_set_commute (k1 v1 k2 v2 : string) (m : gmap string string) :
  k1 ≠ k2 → js_set k1 v1 (js_set k2 v2 m) = js_set k2 v2 (js_set k1 v1 m).
Proof.
  intros Hne. unfold js_set.
  destruct (decide (k1 = "__proto__")), (decide (k2 = "__proto__")); try done.
  by apply insert_insert_ne.
Qed.

(** C6 (as amended). loadStateFromXml performs one assignment for every
    language element of the document, in document order, under the value
    attribute of the element and with its innerHTML. So an element at any
    position, whatever its identifier, configured or not, has its body in the
    buffer map afterwards, unless a later element is assigned under the same
    key, and unless the identifier is __proto__, under which an assignment
    to the object stores nothing. *)
Theorem loadStateFromXml_permissive (xml : list node) (e : CodeEditor)
    (before after : list node) (n : node) (v : string) :
  getElementsByTagName "language" xml = before ++ n :: after →
  getAttribute "value" n = Some v →
  v ≠ "__proto__" →
  Forall (λ n', property_key (getAttribute "value" n') ≠ v) after →
  let e' := editor_of (loadStateFromXml xml e) in
  code e' = fold_left (λ m kv, js_set kv.1 kv.2 m)
              (stores (getElementsByTagName "language" xml)) (code e)
  ∧ code e' !! v = Some (innerHTML n).
Proof.
  intros Hls Hv Hproto Hafter e'. split; [apply loadStateFromXml_code|].
  unfold e'. rewrite loadStateFromXml_code, Hls.
  unfold stores. rewrite map_app, fold_left_app. cbn [map fold_left].
  rewrite fold_js_set_lookup_ne.
  - rewrite Hv. cbn. by apply js_set_lookup_eq.
  - apply Forall_map. exact Hafter.
Qed.

Lemma loadStateFromXml_permissive_witness :
  let xml := parseFromString (λ _, [])
    "<editor><language value='ruby'>puts 1</language><language value='python'>x=1</language></editor>" in
  let e' := editor_of (loadStateFromXml xml
              (new_CodeEditor example_browser KalebrWithConsole)) in
  code e' = fold_left (λ m kv, js_set kv.1 kv.2 m)
              (stores (getElementsByTagName "language" xml)) ∅
  ∧ code e' !! "ruby" = Some "puts 1".
Proof.
  intros xml e'.
  apply (loadStateFromXml_permissive xml
           (new_CodeEditor example_browser KalebrWithConsole) []
           [Element "language" [("value", "python")] [Text "x=1"]]
           (Element "language" [("value", "ruby")] [Text "puts 1"]) "ruby").
  - reflexivity.
  - reflexivity.
  - discriminate.
  - constructor; [|constructor]. vm_compute. discriminate.
Defined.

(** C6, refuted as stated: a language element whose value attribute is
    __proto__ is read, but its body is stored nowhere; the buffer map is as
    before. *)
Lemma loadStateFromXml_proto_not_stored :
  let xml := parseFromString (λ _, [])
    "<editor><language value='__proto__'>x = 1</language></editor>" in
  let e := new_CodeEditor example_browser KalebrWithConsole in
  let e' := editor_of (loadStateFromXml xml e) in
  map (λ n, (getAttribute "value" n, innerHTML n))
      (getElementsByTagName "language" xml)
  = [(Some "__proto__", "x = 1")]
  ∧ code e' !! "__proto__" = None
  ∧ code e' = code e.
Proof. by vm_compute. Qed.

(** The order of the elements does not matter as long as they are stored
    under different keys. *)
Lemma fold_insert_permutation (kvs kvs' : list (string * string))
    (m : gmap string string) :
  NoDup kvs.*1 → kvs ≡ₚ kvs' →
  fold_left (λ m kv, js_set kv.1 kv.2 m) kvs m
  = fold_left (λ m kv, js_set kv.1 kv.2 m) kvs' m.
Proof.
  intros Hnd Hp. revert m Hnd.
  induction Hp as [|kv kvs kvs' Hp IH|kv1 kv2 kvs|kvs1 kvs2 kvs3 Hp1 IH1 Hp2 IH2];
    intros m Hnd.
  - done.
  - cbn [fold_left]. apply IH. by apply NoDup_cons in Hnd as [_ Hnd].
  - cbn [fold_left]. rewrite js_set_commute; [done|].
    rewrite !fmap_cons in Hnd. apply NoDup_cons in Hnd as [Hnotin _].
    rewrite not_elem_of_cons in Hnotin. by destruct Hnotin as [Hne _].
  - rewrite IH1 by done. apply IH2. by rewrite <- Hp1.
Qed.

(** X19. Two documents whose language elements are the same up to their
    order, and are stored under different keys, load to the same buffers. *)
Lemma loadStateFromXml_any_order (xml xml' : list node) (e : CodeEditor) :
  NoDup (stores (getElementsByTagName "language" xml)).*1 →
  getElementsByTagName "language" xml ≡ₚ getElementsByTagName "language" xml' →
  code (editor_of (loadStateFromXml xml e))
  = code (editor_of (loadStateFromXml xml' e)).
Proof.
  intros Hnd Hp. rewrite !loadStateFromXml_code.
  apply fold_insert_permutation; [done|]. unfold stores. by rewrite Hp.
Qed.

(** The scenario of the specification: loading a state with python only. *)
Example loadStateFromXmlString_python_only :
  let e' := editor_of (loadStateFromXmlString
              "<editor><language value='python'>x=1</language></editor>"
              (new_CodeEditor example_browser KalebrWithConsole)) in
  code e' !! "python" = Some "x=1" ∧ code e' !! "javascript" = None.
Proof. by vm_compute. Qed.

Lemma parsererror_document_languages :
  getElementsByTagName "language" parsererror_document = [].
Proof. reflexivity. Qed.

(** C4 (as amended). loadStateFromXmlString checks neither for a parser
    error nor for the format: it assigns from whatever language elements the
    document returned by the parser holds. So it leaves the buffer map as it
    was when that document holds no language element, as does the document
    that the HTML Standard gives for an input that fails to parse. *)
Theorem loadStateFromXmlString_no_language_element
    (xmlString : string) (e : CodeEditor) :
  (getElementsByTagName "language"
     (parseFromString (other_documents e) xmlString) = [] →
   code (editor_of (loadStateFromXmlString xmlString e)) = code e)
  ∧ (parse_xml xmlString = None →
     other_documents e xmlString = parsererror_document →
     code (editor_of (loadStateFromXmlString xmlString e)) = code e).
Proof.
  assert (H : getElementsByTagName "language"
                (parseFromString (other_documents e) xmlString) = [] →
              code (editor_of (loadStateFromXmlString xmlString e)) = code e).
  { intros Hn. unfold loadStateFromXmlString.
    rewrite loadStateFromXml_code. by rewrite Hn. }
  split; [exact H|]. intros Hp Ho. apply H.
  unfold parseFromString. by rewrite Hp, Ho.
Qed.

Lemma loadStateFromXmlString_no_language_element_witness :
  let e := addCodeToEditor "print(1)" "python"
             (new_CodeEditor example_browser KalebrWithConsole) in
  code (editor_of (loadStateFromXmlString
          "<editor><language value='python'>x = 1</language><language value='javascript'>"
          e)) = code e.
Proof.
  intros e.
  apply (proj2 (loadStateFromXmlString_no_language_element _ e)); reflexivity.
Defined.

(** C4, refuted as stated: a well-formed document of another vocabulary is
    no state of the editor format, yet it is not refused, and the language
    element found in it replaces the python buffer. *)
Lemma loadStateFromXmlString_other_document :
  let xmlString :=
    "<project><item><language value='python'>junk</language></item></project>" in
  let e := addCodeToEditor "print(1)" "python"
             (new_CodeEditor example_browser KalebrWithConsole) in
  let e' := editor_of (loadStateFromXmlString xmlString e) in
  is_editor_document (parseFromString (other_documents e) xmlString) = false
  ∧ code e !! "python" = Some "print(1)"
  ∧ code e' !! "python" = Some "junk".
Proof. by vm_compute. Qed.

(** The same for an engine that, for an input that is not well formed, keeps
    the nodes read before the error: the complete element is stored. *)
Example loadStateFromXmlString_partial_tree :
  let xmlString :=
    "<editor><language value='python'>x = 1</language><language value='javascript'>" in
  let keeps_tree := λ _ : string,
    [Element "editor" []
       [Element "parsererror" [] [];
        Element "language" [("value", "python")] [Text "x = 1"];
        Element "language" [("value", "javascript")] []]] in
  let e := addCodeToEditor "print(1)" "python"
             (new_CodeEditor {| browser_textarea_value := normalize_newlines;
                                browser_other_documents := keeps_tree |}
                KalebrWithConsole) in
  parse_xml xmlString = None
  ∧ code (editor_of (loadStateFromXmlString xmlString e)) !! "python"
    = Some "x = 1".
Proof. by vm_compute. Qed.

(** ** Parsing a serialised state *)

Lemma run_app (st : pstate) (a b : string) : run st (a +:+ b) = run (run st a) b.
Proof.
  revert st. induction a as [|c a IH]; intros st; [reflexivity|].
  rewrite app_cons. cbn [run]. apply IH.
Qed.

Lemma plain_char_spec (c : ascii) :
  plain_char c = true →
  xml_char c = true ∧ Ascii.eqb c "<" = false ∧ Ascii.eqb c "&" = false
  ∧ Ascii.eqb c ">" = false ∧ Ascii.eqb c "013" = false.
Proof.
  unfold plain_char. rewrite !andb_true_iff, !negb_true_iff. tauto.
Qed.

(** Plain character data inside an element is accumulated as it stands. *)
Lemma run_plain (p acc : string) (f : frame) (stack : list frame) (top : list node) :
  plain p = true →
  run (PS (Content acc) (f :: stack) top) p
  = PS (Content (acc +:+ p)) (f :: stack) top.
Proof.
  revert acc. induction p as [|c p IH]; intros acc Hp.
  - by rewrite app_nil_r.
  - unfold plain in Hp. cbn [string_forall] in Hp.
    apply andb_true_iff in Hp as [Hc Hp].
    apply plain_char_spec in Hc as (Hx & Hlt & Hamp & Hgt & _).
    cbn [run step]. rewrite Hx. cbn [step_mode]. rewrite Hlt, Hamp, Hgt.
    cbn [andb]. rewrite IH by exact Hp.
    unfold snoc, ch. by rewrite app_assoc.
Qed.

Lemma normalize_newlines_id (s : string) :
  string_forall (λ c, negb (Ascii.eqb c "013")) s = true →
  normalize_newlines s = s.
Proof.
  induction s as [|c s IH]; [done|].
  cbn [string_forall normalize_newlines]. rewrite andb_true_iff, negb_true_iff.
  intros [-> Hs]. by rewrite IH.
Qed.

Lemma plain_no_cr (p : string) :
  plain p = true → string_forall (λ c, negb (Ascii.eqb c "013")) p = true.
Proof.
  apply string_forall_impl. intros c Hc.
  apply plain_char_spec in Hc as (_ & _ & _ & _ & ->). done.
Qed.

Lemma escape_plain (p : string) : plain p = true → escape false p = p.
Proof.
  induction p as [|c p IH]; [done|].
  unfold plain. cbn [string_forall escape]. rewrite andb_true_iff.
  intros [Hc Hp]. apply plain_char_spec in Hc as (_ & -> & -> & -> & _).
  cbn [andb]. by rewrite IH.
Qed.

(** The element the parser builds for one serialised buffer. *)
Lemma run_language_element (l p : string) (f : frame) (stack : list frame)
    (top : list node) :
  l ∈ saved_languages →
  plain p = true →
  run (PS (Content EmptyString) (f :: stack) top) (language_element l p)
  = PS (Content EmptyString)
       ({| f_tag := f_tag f; f_attrs := f_attrs f;
           f_children := f_children f
                           ++ [Element "language" [("value", l)] (text_nodes p)] |}
          :: stack) top.
Proof.
  intros Hl Hp.
  assert (Hopen : ∀ X,
    run (PS (Content EmptyString) (f :: stack) top)
        ("<language value=" +:+ dquote +:+ l +:+ dquote +:+ " >" +:+ X)
    = run (PS (Content EmptyString)
             ({| f_tag := "language"; f_attrs := [("value", l)];
                 f_children := [] |} :: f :: stack) top) X).
  { intros X. unfold saved_languages in Hl.
    rewrite !elem_of_cons, elem_of_nil in Hl.
    destruct Hl as [->|[->|[->|[]]]]; reflexivity. }
  unfold language_element. rewrite Hopen, run_app, run_plain by exact Hp.
  destruct p; reflexivity.
Qed.

Lemma innerHTML_language_element (l p : string) :
  plain p = true →
  innerHTML (Element "language" [("value", l)] (text_nodes p)) = p.
Proof.
  intros Hp. destruct p as [|c p]; [reflexivity|].
  cbn [innerHTML text_nodes map join_strings serialize].
  by rewrite app_nil_r, escape_plain.
Qed.

Lemma parse_xml_state_string (p j a : string) :
  plain p = true → plain j = true → plain a = true →
  parse_xml (state_string p j a)
  = Some [Element "editor" []
            [Element "language" [("value", "python")] (text_nodes p);
             Element "language" [("value", "javascript")] (text_nodes j);
             Element "language" [("value", "arduino")] (text_nodes a)]].
Proof.
  intros Hp Hj Ha. unfold parse_xml.
  rewrite normalize_newlines_id.
  2:{ unfold state_string, language_element.
      rewrite !string_forall_app.
      rewrite (plain_no_cr p), (plain_no_cr j), (plain_no_cr a) by done.
      reflexivity. }
  unfold state_string.
  change (run ?st ("<editor>" +:+ ?X))
    with (run (PS (Content EmptyString)
                 [{| f_tag := "editor"; f_attrs := []; f_children := [] |}] []) X).
  rewrite run_app, run_language_element by (done || (unfold saved_languages; set_solver)).
  rewrite run_app, run_language_element by (done || (unfold saved_languages; set_solver)).
  rewrite run_app, run_language_element by (done || (unfold saved_languages; set_solver)).
  reflexivity.
Qed.

(** ** The round trip *)

(** C1 (as amended). When the python, javascript and arduino buffers hold
    plain character data (ASCII characters only, no markup character, no
    closing angle bracket, no carriage return, no forbidden control
    character; the empty text included), loading the serialised state, into the same editor or any
    other, sets the entry of each of the three languages to the buffer text
    it had before serialisation, and changes no other entry. *)
Theorem round_trip_plain (e e2 : CodeEditor) :
  plain (buffer e "python") = true →
  plain (buffer e "javascript") = true →
  plain (buffer e "arduino") = true →
  let e' := editor_of (loadStateFromXmlString (getStateAsXmlString e) e2) in
  (∀ l, l ∈ saved_languages →
        code e' !! l = Some (buffer e l) ∧ buffer e' l = buffer e l)
  ∧ (∀ k, k ∉ saved_languages → code e' !! k = code e2 !! k).
Proof.
  intros Hp Hj Ha e'.
  assert (Hc : code e'
    = <["arduino" := buffer e "arduino"]>
        (<["javascript" := buffer e "javascript"]>
           (<["python" := buffer e "python"]> (code e2)))).
  { unfold e', loadStateFromXmlString, parseFromString.
    rewrite getStateAsXmlString_unfold, parse_xml_state_string by done.
    rewrite loadStateFromXml_code.
    assert (Hels : ∀ x y z,
      getElementsByTagName "language"
        [Element "editor" []
           [Element "language" [("value", "python")] (text_nodes x);
            Element "language" [("value", "javascript")] (text_nodes y);
            Element "language" [("value", "arduino")] (text_nodes z)]]
      = [Element "language" [("value", "python")] (text_nodes x);
         Element "language" [("value", "javascript")] (text_nodes y);
         Element "language" [("value", "arduino")] (text_nodes z)]).
    { intros [|] [|] [|]; reflexivity. }
    rewrite Hels. cbn [stores map fold_left fst snd].
    rewrite !innerHTML_language_element by done. reflexivity. }
  unfold saved_languages. split.
  - intros l Hl. rewrite !elem_of_cons, elem_of_nil in Hl.
    assert (Hlk : code e' !! l = Some (buffer e l)).
    { rewrite Hc. destruct Hl as [->|[->|[->|[]]]]; by simplify_map_eq. }
    split; [exact Hlk|]. unfold buffer at 1. rewrite Hlk. apply js_or_idemp.
  - intros k Hk. rewrite !not_elem_of_cons in Hk. destruct Hk as (? & ? & ? & _).
    rewrite Hc. by simplify_map_eq.
Qed.

Lemma round_trip_plain_witness :
  let e := addCodeToEditor "print('a' + 1)" "python"
             (addCodeToEditor "BEGIN" "blockly" (new_CodeEditor example_browser KalebrWithConsole)) in
  let e' := editor_of (loadStateFromXmlString (getStateAsXmlString e) e) in
  (∀ l, l ∈ saved_languages →
        code e' !! l = Some (buffer e l) ∧ buffer e' l = buffer e l)
  ∧ (∀ k, k ∉ saved_languages → code e' !! k = code e !! k).
Proof.
  intros e e'. apply (round_trip_plain e e); reflexivity.
Defined.

(** C1, refuted as stated: with a language element for python as the text
    of the arduino buffer, the document read back holds that element too,
    after the one serialised for python, and loading it overwrites the
    python buffer. *)
Lemma round_trip_markup_counterexample :
  let e := addCodeToEditor "<language value='python'>x</language>" "arduino"
             (addCodeToEditor "print(1)" "python"
                (new_CodeEditor example_browser KalebrWithConsole)) in
  let e' := editor_of (loadStateFromXmlString (getStateAsXmlString e) e) in
  code e !! "python" = Some "print(1)"
  ∧ code e' !! "python" = Some "x"
  ∧ code e' !! "python" ≠ code e !! "python".
Proof. vm_compute. repeat split. discriminate. Qed.

(** Further buffers the round trip does not reproduce. A closing angle
    bracket comes back as a reference, and an element with an empty body as
    an empty-element tag. *)
Example round_trip_gt :
  let e := addCodeToEditor "a > b" "python" (new_CodeEditor example_browser KalebrWithConsole) in
  code (editor_of (loadStateFromXmlString (getStateAsXmlString e) e)) !! "python"
  = Some "a &gt; b".
Proof. by vm_compute. Qed.

Example round_trip_empty_element :
  let e := addCodeToEditor "<b></b>" "python" (new_CodeEditor example_browser KalebrWithConsole) in
  code (editor_of (loadStateFromXmlString (getStateAsXmlString e) e)) !! "python"
  = Some "<b/>".
Proof. by vm_compute. Qed.

(** With a lone opening angle bracket or ampersand in a buffer the
    serialised state is not well formed: in a browser that gives the
    document of a failed parse for it, loading it changes nothing, so
    another editor does not receive the buffers. *)
Example round_trip_not_well_formed :
  let e := addCodeToEditor "if a < b & c:" "python"
             (new_CodeEditor example_browser KalebrWithConsole) in
  parse_xml (getStateAsXmlString e) = None
  ∧ code (editor_of (loadStateFromXmlString (getStateAsXmlString e)
                       (new_CodeEditor example_browser KalebrWithConsole))) !! "python" = None.
Proof. by vm_compute. Qed.

(** * Further properties of the editor *)

(** ** Descriptors and refreshing *)

Lemma getLanguageAttributes_None (l : string) :
  l ∉ map value languages → getLanguageAttributes l = None.
Proof.
  cbn [map languages value]. rewrite !not_elem_of_cons.
  intros (? & ? & ? & ? & _). unfold getLanguageAttributes, languages.
  rewrite !filter_cons, filter_nil. cbn [value].
  repeat case_decide; first [done | congruence].
Qed.

Lemma getLanguageAttributes_Some (l : string) (d : LanguageDescriptor) :
  getLanguageAttributes l = Some d → d ∈ languages ∧ value d = l.
Proof.
  unfold getLanguageAttributes, languages.
  rewrite !filter_cons, filter_nil. cbn [value].
  repeat case_decide; cbn [head]; intros [= <-]; (split; [set_solver|done]).
Qed.

(** X1. The lookup of a descriptor finds, for each configured identifier,
    the one descriptor carrying it, and nothing for any other string. *)
Theorem getLanguageAttributes_lookup (l : string) :
  (∀ d, getLanguageAttributes l = Some d ↔ d ∈ languages ∧ value d = l)
  ∧ (getLanguageAttributes l = None ↔ l ∉ map value languages).
Proof.
  split.
  - intros d. split; [apply getLanguageAttributes_Some|].
    unfold languages. rewrite !elem_of_cons, elem_of_nil.
    intros [[->|[->|[->|[->|[]]]]] <-]; reflexivity.
  - split; [|apply getLanguageAttributes_None].
    intros Hn Hin. destruct (getLanguageAttributes_configured l Hin) as (d & Hd & _).
    congruence.
Qed.

Lemma refreshEditor_Normal (l : option string) (e : CodeEditor)
    (d : LanguageDescriptor) :
  getLanguageAttributes (resolved_language l e) = Some d →
  refreshEditor l e
  = Normal (set_flask
              (rendered d (resolved_language l e)
                 (textarea_value (flask e) (buffer e (resolved_language l e))) e)
              e).
Proof.
  intros Hd. unfold refreshEditor. fold (resolved_language l e). by rewrite Hd.
Qed.

Lemma refreshEditor_Throw (l : option string) (e : CodeEditor) :
  getLanguageAttributes (resolved_language l e) = None →
  refreshEditor l e = Throw TypeError e.
Proof.
  intros Hd. unfold refreshEditor. fold (resolved_language l e). by rewrite Hd.
Qed.

(** X2. refreshEditor returns exactly when the language it settles on is
    configured, and then the text area holds the buffer of that language as
    the text area reads it back, edits are bound to that language, and
    language, buffers and listeners are as before. For any other language it
    throws a TypeError and leaves the editor untouched. *)
Theorem refreshEditor_outcome (l : option string) (e : CodeEditor) :
  let r := resolved_language l e in
  (r ∈ map value languages →
   ∃ e', refreshEditor l e = Normal e'
         ∧ textarea (flask e') = textarea_value (flask e) (buffer e r)
         ∧ onUpdate_language (flask e') = Some r
         ∧ language e' = language e ∧ code e' = code e
         ∧ listeners_ e' = listeners_ e)
  ∧ (r ∉ map value languages → refreshEditor l e = Throw TypeError e).
Proof.
  intros r. split.
  - intros Hr. destruct (getLanguageAttributes_configured r Hr) as (d & Hd & _).
    eexists. split; [by apply refreshEditor_Normal|]. done.
  - intros Hr. apply refreshEditor_Throw. by apply getLanguageAttributes_None.
Qed.

(** X3. The argument of refreshEditor defaults twice: without an argument,
    or with the empty string, the selected language is refreshed, and python
    when the selected language is itself the empty string. *)
Theorem refreshEditor_default (e : CodeEditor) :
  refreshEditor (Some EmptyString) e = refreshEditor None e
  ∧ (language e ≠ EmptyString →
     refreshEditor None e = refreshEditor (Some (language e)) e)
  ∧ (language e = EmptyString →
     refreshEditor None e = refreshEditor (Some "python") e).
Proof.
  split; [reflexivity|]. unfold refreshEditor. split.
  - intros Hl. by destruct (language e).
  - by intros ->.
Qed.

Lemma refreshEditor_default_witness :
  let e := set_language EmptyString (new_CodeEditor example_browser KalebrWithConsole) in
  refreshEditor None (new_CodeEditor example_browser KalebrWithConsole)
  = refreshEditor (Some "python") (new_CodeEditor example_browser KalebrWithConsole)
  ∧ refreshEditor None e = refreshEditor (Some "python") e.
Proof.
  intros e. split.
  - apply (proj1 (proj2 (refreshEditor_default (new_CodeEditor example_browser KalebrWithConsole)))).
    vm_compute. discriminate.
  - apply (proj2 (proj2 (refreshEditor_default e))). reflexivity.
Defined.

(** ** Selecting a language that is not configured *)

Lemma resolved_language_Some (l : string) (e : CodeEditor) :
  l ≠ EmptyString → resolved_language (Some l) e = l.
Proof. by destruct l. Qed.

Lemma resolved_language_None (e : CodeEditor) :
  language e ≠ EmptyString → resolved_language None e = language e.
Proof. unfold resolved_language. cbn [js_or]. by destruct (language e). Qed.

Lemma fold_load_element_language (ls : list node) (e : CodeEditor) :
  language (fold_left load_element ls e) = language e.
Proof.
  revert e. induction ls as [|n ls IH]; intros e; [done|].
  cbn [fold_left]. by rewrite IH.
Qed.

(** X4. changeLanguage with a non-empty identifier that is not configured
    throws a TypeError after it has selected the identifier: no listener is
    called and the push button and the engine are not updated. From then on
    clear and loadStateFromXml throw as well, although clear has emptied the
    buffers and loadStateFromXml has stored the elements. *)
Theorem changeLanguage_unconfigured
    (body : listener → event → CodeEditor → CodeEditor)
    (l : string) (e : CodeEditor) (xml : list node) :
  l ≠ EmptyString → l ∉ map value languages →
  let e' := set_language l e in
  changeLanguage body l e = Throw TypeError e'
  ∧ getSelectedLanguage e' = l
  ∧ clear e' = Throw TypeError (set_code ∅ e')
  ∧ loadStateFromXml xml e'
    = Throw TypeError
        (fold_left load_element (getElementsByTagName "language" xml) e').
Proof.
  intros Hne Hl e'.
  assert (Hr : ∀ e0, language e0 = l → refreshEditor None e0 = Throw TypeError e0).
  { intros e0 H0. apply refreshEditor_Throw.
    rewrite resolved_language_None by (by rewrite H0).
    rewrite H0. by apply getLanguageAttributes_None. }
  split; [|split; [done|split]].
  - unfold changeLanguage. fold e'. rewrite refreshEditor_Throw; [done|].
    rewrite resolved_language_Some by done. by apply getLanguageAttributes_None.
  - unfold clear. by apply Hr.
  - unfold loadStateFromXml. apply Hr. by rewrite fold_load_element_language.
Qed.

Lemma changeLanguage_unconfigured_witness :
  let e' := set_language "ruby" (new_CodeEditor example_browser KalebrWithConsole) in
  let xml := [Element "language" [("value", "ruby")] [Text "puts 1"]] in
  changeLanguage (λ f _ e, (addChangeListener (S f) e).2) "ruby"
    (new_CodeEditor example_browser KalebrWithConsole) = Throw TypeError e'
  ∧ getSelectedLanguage e' = "ruby"
  ∧ clear e' = Throw TypeError (set_code ∅ e')
  ∧ loadStateFromXml xml e'
    = Throw TypeError
        (fold_left load_element (getElementsByTagName "language" xml) e').
Proof.
  intros e' xml. apply changeLanguage_unconfigured; [discriminate|].
  cbn [map languages value]. rewrite !not_elem_of_cons.
  repeat split; [discriminate ..|]. apply not_elem_of_nil.
Defined.

Lemma refreshEditor_outcome_witness :
  (∃ e', refreshEditor (Some "javascript") (new_CodeEditor example_browser KalebrWithConsole)
         = Normal e'
         ∧ textarea (flask e') = EmptyString
         ∧ onUpdate_language (flask e') = Some "javascript"
         ∧ language e' = "python" ∧ code e' = ∅ ∧ listeners_ e' = [])
  ∧ refreshEditor (Some "ruby") (new_CodeEditor example_browser KalebrWithConsole)
    = Throw TypeError (new_CodeEditor example_browser KalebrWithConsole).
Proof.
  split.
  - apply (proj1 (refreshEditor_outcome (Some "javascript")
                    (new_CodeEditor example_browser KalebrWithConsole))).
    cbn [map languages value]. rewrite !elem_of_cons. tauto.
  - apply (proj2 (refreshEditor_outcome (Some "ruby")
                    (new_CodeEditor example_browser KalebrWithConsole))).
    cbn [map languages value]. rewrite !not_elem_of_cons.
    repeat split; [discriminate ..|]. apply not_elem_of_nil.
Defined.

(** ** The editor in operation *)

Lemma configured_nonempty (l : string) :
  l ∈ map value languages → l ≠ EmptyString.
Proof.
  intros H. destruct (configured_cases l H) as [->|[->|[->| ->]]]; discriminate.
Qed.

Lemma configured_not_proto (l : string) :
  l ∈ map value languages → l ≠ "__proto__".
Proof.
  intros H. destruct (configured_cases l H) as [->|[->|[->| ->]]]; discriminate.
Qed.

(** X5. A firing keeps every property of the editor that each listener
    keeps when called. *)
Theorem fireChangeListener_preserves
    (body : listener → event → CodeEditor → CodeEditor)
    (P : CodeEditor → Prop) (ev : event) (e : CodeEditor) :
  (∀ f ev e, P e → P (body f ev e)) →
  P e → P (fireChangeListener body ev e).2.
Proof.
  intros Hbody. unfold fireChangeListener.
  generalize (listeners_ e) at 1. intros ls. revert e.
  induction ls as [|f ls IH]; intros e He; [done|].
  cbn [fire_loop snd]. apply IH. by apply Hbody.
Qed.

Lemma fireChangeListener_preserves_witness :
  language (fireChangeListener (λ f _ e, (addChangeListener (S f) e).2)
              CODE_UPDATED
              (register_all [1; 2] (new_CodeEditor example_browser KalebrWithConsole))).2
  = "python".
Proof.
  apply (fireChangeListener_preserves _ (λ e, language e = "python")).
  - intros f ev e He. exact He.
  - reflexivity.
Defined.

Lemma fire_loop_observer (body : listener → event → CodeEditor → CodeEditor)
    (ls : list listener) (ev : event) (e : CodeEditor) :
  observer body →
  let e' := (fire_loop body ls ev e).2 in
  language e' = language e ∧ code e' = code e ∧ flask e' = flask e
  ∧ pushDisabled e' = pushDisabled e.
Proof.
  intros Hobs. revert e. induction ls as [|f ls IH]; intros e; [done|].
  cbn [fire_loop snd]. cbn zeta in IH.
  destruct (IH (body f ev e)) as (-> & -> & -> & ->). apply Hobs.
Qed.

Lemma consistent_frame_buffer (e e' : CodeEditor) :
  language e' = language e →
  buffer e' (language e) = buffer e (language e) →
  flask e' = flask e → pushDisabled e' = pushDisabled e →
  consistent e → consistent e'.
Proof.
  intros Hl Hb Hf Hp (d & t & Hd & Hfl & Ht & Hpd). exists d, t.
  unfold rendered in *. rewrite Hl, Hf, Hp, Hb. done.
Qed.

Lemma consistent_frame (e e' : CodeEditor) :
  language e' = language e → code e' = code e → flask e' = flask e →
  pushDisabled e' = pushDisabled e → consistent e → consistent e'.
Proof.
  intros Hl Hc Hf Hp. apply consistent_frame_buffer; try done.
  unfold buffer. by rewrite Hc.
Qed.

Lemma consistent_refreshEditor (e : CodeEditor) :
  language e ∈ map value languages →
  pushDisabled e = negb (bool_decide (language e = "python")) →
  ∃ e', refreshEditor None e = Normal e' ∧ consistent e'
        ∧ language e' = language e ∧ code e' = code e
        ∧ textarea (flask e') = textarea_value (flask e) (buffer e (language e)).
Proof.
  intros Hl Hp. destruct (getLanguageAttributes_configured _ Hl) as (d & Hd & _).
  pose proof (resolved_language_None e (configured_nonempty _ Hl)) as Hr.
  eexists. split; [apply (refreshEditor_Normal None e d); by rewrite Hr|].
  rewrite Hr. split; [|done].
  exists d, (textarea_value (flask e) (buffer e (language e))).
  split; [done|]. split; [done|]. split; [by right|done].
Qed.

Lemma consistent_configured (e : CodeEditor) :
  consistent e → language e ∈ map value languages.
Proof.
  intros (d & t & Hd & _). apply getLanguageAttributes_Some in Hd as [Hin <-].
  apply list_elem_of_fmap. by exists d.
Qed.

Lemma consistent_new (browser : Browser) (host : KalebrGlobal) :
  consistent (new_CodeEditor browser host).
Proof.
  eexists _, _. split; [reflexivity|]. split; [reflexivity|].
  split; [right; reflexivity|reflexivity].
Qed.

Lemma consistent_changeLanguage
    (body : listener → event → CodeEditor → CodeEditor) (l : string)
    (e : CodeEditor) :
  observer body → l ∈ map value languages →
  ∃ e', changeLanguage body l e = Normal e' ∧ consistent e' ∧ language e' = l
        ∧ code e' = code e
        ∧ textarea (flask e') = textarea_value (flask e) (buffer e l)
        ∧ textarea_value (flask e') = textarea_value (flask e).
Proof.
  intros Hobs Hl. destruct (getLanguageAttributes_configured _ Hl) as (d & Hd & _).
  unfold changeLanguage.
  rewrite (refreshEditor_Normal _ _ d)
    by (by rewrite resolved_language_Some by (by apply configured_nonempty)).
  rewrite resolved_language_Some by (by apply configured_nonempty).
  cbn [and_then]. eexists. split; [reflexivity|].
  unfold fireChangeListener.
  match goal with |- context [fire_loop body ?ls ?ev ?e0] =>
    destruct (fire_loop_observer body ls ev e0 Hobs) as (Hl' & Hc' & Hf' & Hp')
  end.
  split; [|split; [by rewrite Hl'|split; [by rewrite Hc'|by rewrite Hf']]].
  eapply consistent_frame; [exact Hl'|exact Hc'|exact Hf'|exact Hp'|].
  exists d, (textarea_value (flask e) (buffer e l)).
  split; [done|]. split; [done|]. split; [by right|done].
Qed.

Lemma consistent_flask_input
    (body : listener → event → CodeEditor → CodeEditor) (c : string)
    (e : CodeEditor) :
  observer body → consistent e →
  consistent (flask_input body c e)
  ∧ language (flask_input body c e) = language e
  ∧ code (flask_input body c e) = <[language e := c]> (code e)
  ∧ textarea (flask (flask_input body c e)) = c
  ∧ textarea_value (flask (flask_input body c e)) = textarea_value (flask e).
Proof.
  intros Hobs He.
  pose proof (configured_not_proto _ (consistent_configured e He)) as Hnp.
  destruct He as (d & t & Hd & Hfl & Ht & Hpd).
  assert (Hu : onUpdate_language (flask e) = Some (language e))
    by (by rewrite Hfl).
  assert (Hs : flask_language (flask e) = js_or (syntax d) (language e))
    by (by rewrite Hfl).
  assert (Hro : textarea_readOnly (flask e) = default false (readOnly d))
    by (by rewrite Hfl).
  unfold flask_input. rewrite Hu, js_set_insert by done.
  unfold fireChangeListener.
  match goal with |- context [fire_loop body ?ls ?ev ?e0] =>
    destruct (fire_loop_observer body ls ev e0 Hobs) as (Hl' & Hc' & Hf' & Hp')
  end.
  split; [|split; [by rewrite Hl'|split; [by rewrite Hc'|by rewrite Hf']]].
  eapply consistent_frame; [exact Hl'|exact Hc'|exact Hf'|exact Hp'|].
  exists d, c. split; [done|]. split.
  { cbn [flask set_code set_flask language]. unfold rendered.
    by rewrite Hs, Hro. }
  split; [|done].
  left. unfold buffer. cbn. rewrite lookup_insert_eq. by destruct c.
Qed.

Lemma fold_load_element_set_code (ls : list node) (e : CodeEditor) :
  fold_left load_element ls e
  = set_code (fold_left (λ m kv, js_set kv.1 kv.2 m) (stores ls) (code e)) e.
Proof.
  revert e. induction ls as [|n ls IH]; intros e; [by destruct e|].
  cbn [fold_left stores map]. fold (stores ls). by rewrite IH.
Qed.

Lemma pushCode_frame (e : CodeEditor) :
  let e' := editor_of (pushCode e) in
  language e' = language e ∧ code e' = code e ∧ flask e' = flask e
  ∧ pushDisabled e' = pushDisabled e ∧ listeners_ e' = listeners_ e
  ∧ saved e' = saved e.
Proof.
  unfold pushCode. destruct (decide _); [done|]. by destruct (Kalebr e).
Qed.

Lemma saveCode_frame (fileName : string) (e : CodeEditor) :
  let e' := editor_of (saveCode fileName e) in
  language e' = language e ∧ code e' = code e ∧ flask e' = flask e
  ∧ pushDisabled e' = pushDisabled e ∧ listeners_ e' = listeners_ e
  ∧ uploads e' = uploads e.
Proof.
  unfold saveCode. destruct (array_index _); [|done].
  by destruct (languages !! _).
Qed.

(** The operations of the page keep the editor consistent, when the
    listeners only observe. *)
Lemma reachable_consistent
    (body : listener → event → CodeEditor → CodeEditor) (host : KalebrGlobal)
    (e : CodeEditor) :
  observer body → reachable body host e → consistent e.
Proof.
  intros Hobs Hr.
  induction Hr as [browser|l e Hr IH Hl|c e Hr IH|s e Hr IH|e Hr IH|e Hr IH
                  |c l e Hr IH Hl|e Hr IH|fileName e Hr IH|f e Hr IH].
  - apply consistent_new.
  - destruct (consistent_changeLanguage body l e Hobs Hl) as (e' & -> & He' & _).
    exact He'.
  - by apply consistent_flask_input.
  - unfold loadStateFromXmlString, loadStateFromXml.
    rewrite fold_load_element_set_code.
    pose proof (consistent_configured e IH) as Hl.
    destruct IH as (d & t & Hd & Hfl & Ht & Hpd).
    match goal with |- context [refreshEditor None ?e0] =>
      destruct (consistent_refreshEditor e0) as (e' & -> & He' & _)
    end; [exact Hl|exact Hpd|exact He'].
  - unfold clear. pose proof (consistent_configured e IH) as Hl.
    destruct IH as (d & t & Hd & Hfl & Ht & Hpd).
    destruct (consistent_refreshEditor (set_code ∅ e)) as (e' & -> & He' & _);
      [exact Hl|exact Hpd|exact He'].
  - pose proof (consistent_configured e IH) as Hl.
    destruct IH as (d & t & Hd & Hfl & Ht & Hpd).
    destruct (consistent_refreshEditor e) as (e' & -> & He' & _);
      [exact Hl|exact Hpd|exact He'].
  - eapply consistent_frame_buffer; [| | | |exact IH]; try done.
    by apply buffer_addCodeToEditor_ne.
  - destruct (pushCode_frame e) as (? & ? & ? & ? & _).
    by eapply consistent_frame; [| | | |exact IH].
  - destruct (saveCode_frame fileName e) as (? & ? & ? & ? & _).
    by eapply consistent_frame; [| | | |exact IH].
  - by eapply consistent_frame; [| | | |exact IH].
Qed.

Lemma consistent_shown (e : CodeEditor) :
  consistent e →
  (textarea (flask e) = buffer e (language e)
   ∨ textarea (flask e) = textarea_value (flask e) (buffer e (language e)))
  ∧ onUpdate_language (flask e) = Some (language e)
  ∧ (pushDisabled e = true ↔ language e ≠ "python")
  ∧ (textarea_readOnly (flask e) = true ↔ language e = "blockly")
  ∧ flask_language (flask e)
    = (if decide (language e = "blockly") then "python" else language e).
Proof.
  intros He. pose proof (consistent_configured e He) as Hl.
  destruct He as (d & t & Hd & Hfl & Ht & Hpd).
  assert (Hta : textarea (flask e) = t) by (by rewrite Hfl).
  assert (Hu : onUpdate_language (flask e) = Some (language e))
    by (by rewrite Hfl).
  assert (Hs : flask_language (flask e) = js_or (syntax d) (language e))
    by (by rewrite Hfl).
  assert (Hro : textarea_readOnly (flask e) = default false (readOnly d))
    by (by rewrite Hfl).
  rewrite Hta, Hu, Hs, Hro, Hpd. clear Hfl Hta Hu Hs Hro Hpd.
  split; [exact Ht|]. split; [done|]. clear Ht.
  destruct (configured_cases _ Hl) as [H|[H|[H|H]]]; rewrite H in *;
    injection Hd as <-; vm_compute; naive_solver.
Qed.

Lemma registering_observer :
  observer (λ f _ e, (addChangeListener (S f) e).2).
Proof. intros f ev e. done. Qed.

(** X6. In every editor reached by the operations of the page, with
    listeners that only observe, the selected language is configured, the
    text area holds the buffer of the selected language, either as it is
    (after an edit) or as the text area reads it back (after a refresh),
    edits go to that buffer, the push button is disabled exactly when the
    language is not python, the text area is read-only exactly for blockly,
    and blockly is highlighted as python, every other language as itself. *)
Theorem reachable_shows_selected_language
    (body : listener → event → CodeEditor → CodeEditor) (host : KalebrGlobal)
    (e : CodeEditor) :
  observer body → reachable body host e →
  language e ∈ map value languages
  ∧ (textarea (flask e) = buffer e (language e)
     ∨ textarea (flask e) = textarea_value (flask e) (buffer e (language e)))
  ∧ onUpdate_language (flask e) = Some (language e)
  ∧ (pushDisabled e = true ↔ language e ≠ "python")
  ∧ (textarea_readOnly (flask e) = true ↔ language e = "blockly")
  ∧ flask_language (flask e)
    = (if decide (language e = "blockly") then "python" else language e).
Proof.
  intros Hobs Hr. pose proof (reachable_consistent body host e Hobs Hr) as He.
  split; [by apply consistent_configured|by apply consistent_shown].
Qed.

Lemma reachable_shows_selected_language_witness :
  let body := λ (f : listener) (_ : event) e, (addChangeListener (S f) e).2 in
  let e := editor_of (changeLanguage body "blockly"
             (flask_input body "x = 1"
                (addChangeListener 1 (new_CodeEditor example_browser KalebrWithConsole)).2)) in
  language e ∈ map value languages
  ∧ (textarea (flask e) = buffer e (language e)
     ∨ textarea (flask e) = textarea_value (flask e) (buffer e (language e)))
  ∧ onUpdate_language (flask e) = Some (language e)
  ∧ (pushDisabled e = true ↔ language e ≠ "python")
  ∧ (textarea_readOnly (flask e) = true ↔ language e = "blockly")
  ∧ flask_language (flask e)
    = (if decide (language e = "blockly") then "python" else language e).
Proof.
  intros body e.
  apply (reachable_shows_selected_language body KalebrWithConsole e).
  - apply registering_observer.
  - apply reach_changeLanguage.
    + apply reach_input, reach_listener, reach_new.
    + cbn [map languages value]. rewrite !elem_of_cons. tauto.
Defined.

(** X7. In every editor reached by the operations of the page, with
    listeners that only observe, pushCode with python selected and the
    console present uploads the content of the text area, once, and that
    content is the python buffer, either as it is or as the text area reads
    it back; so the upload is the python buffer whenever the text area reads
    that buffer back unchanged. *)
Theorem reachable_pushCode_uploads_buffer
    (body : listener → event → CodeEditor → CodeEditor) (host : KalebrGlobal)
    (e : CodeEditor) :
  observer body → reachable body host e →
  language e = "python" → Kalebr e = KalebrWithConsole →
  pushCode e = Normal (log_upload (textarea (flask e)) e)
  ∧ uploads (editor_of (pushCode e)) = uploads e ++ [textarea (flask e)]
  ∧ (textarea (flask e) = buffer e "python"
     ∨ textarea (flask e) = textarea_value (flask e) (buffer e "python"))
  ∧ (textarea_value (flask e) (buffer e "python") = buffer e "python" →
     uploads (editor_of (pushCode e)) = uploads e ++ [buffer e "python"]).
Proof.
  intros Hobs Hr Hl Hk.
  destruct (consistent_shown e (reachable_consistent body host e Hobs Hr))
    as (Ht & _).
  rewrite Hl in Ht.
  assert (Hp : pushCode e = Normal (log_upload (textarea (flask e)) e)).
  { unfold pushCode. rewrite Hk, Hl.
    destruct (decide _) as [Hne|_]; [by destruct Hne|]. done. }
  rewrite Hp. split; [done|]. split; [done|]. split; [exact Ht|].
  intros Hv. cbn [editor_of uploads log_upload].
  destruct Ht as [->| ->]; by rewrite ?Hv.
Qed.

Lemma reachable_pushCode_uploads_buffer_witness :
  let body := λ (f : listener) (_ : event) e, (addChangeListener (S f) e).2 in
  let e := flask_input body "print(1)"
             (editor_of (loadStateFromXmlString
                "<editor><language value='python'>x</language></editor>"
                (new_CodeEditor example_browser KalebrWithConsole))) in
  pushCode e = Normal (log_upload (textarea (flask e)) e)
  ∧ uploads (editor_of (pushCode e)) = uploads e ++ [textarea (flask e)]
  ∧ (textarea (flask e) = buffer e "python"
     ∨ textarea (flask e) = textarea_value (flask e) (buffer e "python"))
  ∧ (textarea_value (flask e) (buffer e "python") = buffer e "python" →
     uploads (editor_of (pushCode e)) = uploads e ++ [buffer e "python"]).
Proof.
  intros body e.
  apply (reachable_pushCode_uploads_buffer body KalebrWithConsole e).
  - apply registering_observer.
  - apply reach_input, reach_load, reach_new.
  - reflexivity.
  - reflexivity.
Defined.

(** X8. In every editor reached by the operations of the page, with
    listeners that only observe, refreshEditor, clear, loadStateFromXmlString
    and changeLanguage to a configured language return without throwing,
    clear leaving no buffer; saveCode throws a TypeError whatever the file
    name. *)
Theorem reachable_methods_return
    (body : listener → event → CodeEditor → CodeEditor) (host : KalebrGlobal)
    (e : CodeEditor) (xmlString fileName l : string) :
  observer body → reachable body host e → l ∈ map value languages →
  (∃ e', refreshEditor None e = Normal e')
  ∧ (∃ e', clear e = Normal e' ∧ code e' = ∅)
  ∧ (∃ e', loadStateFromXmlString xmlString e = Normal e')
  ∧ (∃ e', changeLanguage body l e = Normal e' ∧ language e' = l)
  ∧ saveCode fileName e = Throw TypeError e.
Proof.
  intros Hobs Hr Hl.
  pose proof (reachable_consistent body host e Hobs Hr) as He.
  pose proof (consistent_configured e He) as Hle.
  destruct He as (d & t & Hd & Hfl & Ht & Hpd).
  split; [|split; [|split; [|split]]].
  - destruct (consistent_refreshEditor e Hle Hpd) as (e' & -> & _). by eexists.
  - unfold clear.
    destruct (consistent_refreshEditor (set_code ∅ e) Hle Hpd)
      as (e' & -> & _ & _ & Hc & _). by eexists.
  - unfold loadStateFromXmlString, loadStateFromXml.
    rewrite fold_load_element_set_code.
    match goal with |- context [refreshEditor None ?e0] =>
      destruct (consistent_refreshEditor e0 Hle Hpd) as (e' & -> & _)
    end. by eexists.
  - destruct (consistent_changeLanguage body l e Hobs Hl) as (e' & -> & _ & ? & _).
    by eexists.
  - by apply saveCode_configured_throws.
Qed.

Lemma reachable_methods_return_witness :
  let body := λ (f : listener) (_ : event) e, (addChangeListener (S f) e).2 in
  let e := editor_of (clear (flask_input body "x = 1"
                               (new_CodeEditor example_browser KalebrWithoutConsole))) in
  (∃ e', refreshEditor None e = Normal e')
  ∧ (∃ e', clear e = Normal e' ∧ code e' = ∅)
  ∧ (∃ e', loadStateFromXmlString "<editor/>" e = Normal e')
  ∧ (∃ e', changeLanguage body "arduino" e = Normal e' ∧ language e' = "arduino")
  ∧ saveCode "proj" e = Throw TypeError e.
Proof.
  intros body e.
  apply (reachable_methods_return body KalebrWithoutConsole e).
  - apply registering_observer.
  - apply reach_clear, reach_input, reach_new.
  - cbn [map languages value]. rewrite !elem_of_cons. tauto.
Defined.

(** X9. In every editor reached by the operations of the page, with
    listeners that only observe, an edit stores the text of the text area as
    the buffer of the selected language and changes no other buffer; the
    same edit repeated changes nothing more. *)
Theorem reachable_flask_input
    (body : listener → event → CodeEditor → CodeEditor) (host : KalebrGlobal)
    (e : CodeEditor) (c : string) :
  observer body → reachable body host e →
  let e' := flask_input body c e in
  code e' = <[language e := c]> (code e)
  ∧ buffer e' (language e) = c
  ∧ textarea (flask e') = c
  ∧ code (flask_input body c e') = code e'.
Proof.
  intros Hobs Hr e'.
  pose proof (reachable_consistent body host e Hobs Hr) as He.
  destruct (consistent_flask_input body c e Hobs He)
    as (He' & Hl' & Hc' & Ht' & _).
  destruct (consistent_flask_input body c e' Hobs He') as (_ & _ & Hc'' & _).
  assert (Hb : buffer e' (language e) = c).
  { unfold buffer. fold e' in Hc'. rewrite Hc', lookup_insert_eq. by destruct c. }
  split; [exact Hc'|]. split; [exact Hb|]. split; [exact Ht'|].
  fold e' in Hl', Hc'. rewrite Hc'', Hl', Hc'. apply insert_insert_eq.
Qed.

Lemma reachable_flask_input_witness :
  let body := λ (f : listener) (_ : event) e, (addChangeListener (S f) e).2 in
  let e := editor_of (changeLanguage body "javascript"
                        (new_CodeEditor example_browser KalebrWithConsole)) in
  let e' := flask_input body "let x = 1" e in
  code e' = <[language e := "let x = 1"]> (code e)
  ∧ buffer e' (language e) = "let x = 1"
  ∧ textarea (flask e') = "let x = 1"
  ∧ code (flask_input body "let x = 1" e') = code e'.
Proof.
  intros body e.
  apply (reachable_flask_input body KalebrWithConsole e).
  - apply registering_observer.
  - apply reach_changeLanguage; [apply reach_new|].
    cbn [map languages value]. rewrite !elem_of_cons. tauto.
Defined.

(** X10. With listeners that only observe, the code typed for one language
    is kept while another language is selected: after selecting a configured
    language, typing, selecting a second configured language and selecting
    the first again, the buffer of the first language is what was typed, the
    buffers of the other languages are as they were at the start, and the
    text area holds what was typed as the text area reads it back, which is
    what was typed when the text area reads that text back unchanged, as it
    does a text it reported itself. *)
Theorem changeLanguage_switch_and_back
    (body : listener → event → CodeEditor → CodeEditor)
    (e : CodeEditor) (l1 l2 c : string) :
  observer body →
  l1 ∈ map value languages → l2 ∈ map value languages →
  let e1 := flask_input body c (editor_of (changeLanguage body l1 e)) in
  let e2 := editor_of (changeLanguage body l2 e1) in
  let e3 := editor_of (changeLanguage body l1 e2) in
  getSelectedLanguage e3 = l1
  ∧ textarea (flask e3) = textarea_value (flask e) c
  ∧ (textarea_value (flask e) c = c → textarea (flask e3) = c)
  ∧ code e3 = <[l1 := c]> (code e).
Proof.
  intros Hobs H1 H2 e1 e2 e3.
  destruct (consistent_changeLanguage body l1 e Hobs H1)
    as (a & Ha & Hca & Hla & Hcode_a & _ & Hva).
  assert (He1 : e1 = flask_input body c a) by (unfold e1; by rewrite Ha).
  destruct (consistent_flask_input body c a Hobs Hca)
    as (Hc1 & Hl1 & Hcode1 & _ & Hv1).
  rewrite <- He1 in Hc1, Hl1, Hcode1, Hv1.
  destruct (consistent_changeLanguage body l2 e1 Hobs H2)
    as (b & Hb & Hcb & Hlb & Hcode_b & _ & Hvb).
  assert (He2 : e2 = b) by (unfold e2; by rewrite Hb).
  destruct (consistent_changeLanguage body l1 e2 Hobs H1)
    as (d & Hd & Hcd & Hld & Hcode_d & Htd & _).
  assert (He3 : e3 = d) by (unfold e3; by rewrite Hd).
  assert (Hcode2 : code e2 = <[l1 := c]> (code e)).
  { rewrite He2, Hcode_b, Hcode1, Hla, Hcode_a. done. }
  assert (Ht3 : textarea (flask e3) = textarea_value (flask e) c).
  { rewrite He3, Htd, He2, Hvb, Hv1, Hva. f_equal.
    unfold buffer. rewrite <- He2, Hcode2, lookup_insert_eq. by destruct c. }
  split; [by rewrite He3|]. split; [exact Ht3|].
  split; [intros Hv; by rewrite Ht3|].
  by rewrite He3, Hcode_d.
Qed.

Lemma changeLanguage_switch_and_back_witness :
  let body := λ (f : listener) (_ : event) e, (addChangeListener (S f) e).2 in
  let e := new_CodeEditor example_browser KalebrWithConsole in
  let e1 := flask_input body "void loop() {}"
              (editor_of (changeLanguage body "arduino" e)) in
  let e2 := editor_of (changeLanguage body "python" e1) in
  let e3 := editor_of (changeLanguage body "arduino" e2) in
  getSelectedLanguage e3 = "arduino"
  ∧ textarea (flask e3) = textarea_value (flask e) "void loop() {}"
  ∧ (textarea_value (flask e) "void loop() {}" = "void loop() {}" →
     textarea (flask e3) = "void loop() {}")
  ∧ code e3 = <["arduino" := "void loop() {}"]> (code e).
Proof.
  intros body e.
  apply (changeLanguage_switch_and_back body e "arduino" "python").
  - apply registering_observer.
  - cbn [map languages value]. rewrite !elem_of_cons. tauto.
  - cbn [map languages value]. rewrite !elem_of_cons. tauto.
Defined.

(** ** Loading, once more *)

Lemma fold_insert_union (kvs : list (string * string)) (m : gmap string string) :
  fold_left (λ m kv, <[kv.1 := kv.2]> m) kvs m = list_to_map (reverse kvs) ∪ m.
Proof.
  revert m. induction kvs as [|[k v] kvs IH]; intros m.
  - cbn. by rewrite (left_id_L ∅ (∪)).
  - cbn [fold_left fst snd]. rewrite IH, reverse_cons, list_to_map_app.
    cbn [list_to_map foldr]. cbn.
    rewrite insert_union_singleton_l, insert_empty.
    by rewrite (assoc_L (∪)).
Qed.

(** X11. loadStateFromXml merges: an entry under a key that no language
    element of the document is stored under is as before, and no entry is
    removed. *)
Theorem loadStateFromXml_merges (xml : list node) (e : CodeEditor) :
  let e' := editor_of (loadStateFromXml xml e) in
  (∀ k, k ∉ (stores (getElementsByTagName "language" xml)).*1 →
        code e' !! k = code e !! k)
  ∧ (∀ k, is_Some (code e !! k) → is_Some (code e' !! k)).
Proof.
  intros e'. unfold e'.
  rewrite loadStateFromXml_code, fold_js_set_filter, fold_insert_union. split.
  - intros k Hk. apply lookup_union_r. apply not_elem_of_list_to_map_1.
    intros Hin. apply Hk. rewrite fmap_reverse, elem_of_reverse in Hin.
    apply list_elem_of_fmap in Hin as (kv & -> & Hin).
    apply list_elem_of_fmap. exists kv. split; [done|].
    by apply list_elem_of_filter in Hin as [_ Hin].
  - intros k Hk. rewrite lookup_union. destruct (list_to_map _ !! k); [|by destruct Hk as [? ->]].
    destruct (code e !! k); by eexists.
Qed.

(** X12. Loading the same document a second time changes no buffer. *)
Theorem loadStateFromXml_idempotent (xml : list node) (e : CodeEditor) :
  code (editor_of (loadStateFromXml xml (editor_of (loadStateFromXml xml e))))
  = code (editor_of (loadStateFromXml xml e)).
Proof.
  rewrite !loadStateFromXml_code, !fold_js_set_filter, !fold_insert_union.
  by rewrite (assoc_L (∪)), (idemp_L (∪)).
Qed.

(** ** The persisted form of plain buffers *)

Lemma language_elements_editor (x y z : list node) :
  (∀ n, n ∈ x ++ y ++ z → is_element n = false) →
  getElementsByTagName "language"
    [Element "editor" []
       [Element "language" [("value", "python")] x;
        Element "language" [("value", "javascript")] y;
        Element "language" [("value", "arduino")] z]]
  = [Element "language" [("value", "python")] x;
     Element "language" [("value", "javascript")] y;
     Element "language" [("value", "arduino")] z].
Proof.
  intros Hxyz.
  assert (Hno : ∀ l : list node, (∀ n, n ∈ l → is_element n = false) →
                concat (map elements l) = []).
  { induction l as [|n l IH]; intros Hl; [done|].
    cbn [map concat]. rewrite IH by (intros; apply Hl; set_solver).
    assert (Hn : is_element n = false) by (apply Hl; set_solver).
    by destruct n. }
  unfold getElementsByTagName. cbn [map concat elements].
  rewrite !Hno by (intros; apply Hxyz; set_solver).
  reflexivity.
Qed.

Lemma text_nodes_not_elements (s : string) (n : node) :
  n ∈ text_nodes s → is_element n = false.
Proof. destruct s; cbn; [set_solver|]. by intros ->%list_elem_of_singleton. Qed.

Lemma loadStateFromXmlString_state_string (p j a : string) (e2 : CodeEditor) :
  plain p = true → plain j = true → plain a = true →
  code (editor_of (loadStateFromXmlString (state_string p j a) e2))
  = <["arduino" := a]> (<["javascript" := j]> (<["python" := p]> (code e2))).
Proof.
  intros Hp Hj Ha. unfold loadStateFromXmlString, parseFromString.
  rewrite parse_xml_state_string by done.
  rewrite loadStateFromXml_code, language_elements_editor.
  - cbn [stores map fold_left fst snd].
    by rewrite !innerHTML_language_element by done.
  - intros n. rewrite !elem_of_app.
    intros [H|[H|H]]; by apply text_nodes_not_elements in H.
Qed.

(** X13. For plain buffers the persisted form is stable: serialising,
    loading the string into any editor and serialising that editor again
    gives the same string. *)
Theorem getStateAsXmlString_stable (e e2 : CodeEditor) :
  plain (buffer e "python") = true →
  plain (buffer e "javascript") = true →
  plain (buffer e "arduino") = true →
  getStateAsXmlString
    (editor_of (loadStateFromXmlString (getStateAsXmlString e) e2))
  = getStateAsXmlString e.
Proof.
  intros Hp Hj Ha. rewrite (getStateAsXmlString_unfold e).
  pose proof (loadStateFromXmlString_state_string _ _ _ e2 Hp Hj Ha) as Hc.
  rewrite getStateAsXmlString_unfold.
  assert (Hb : ∀ l, l ∈ saved_languages →
    buffer (editor_of (loadStateFromXmlString
              (state_string (buffer e "python") (buffer e "javascript")
                 (buffer e "arduino")) e2)) l = buffer e l).
  { intros l Hl. unfold buffer at 1. rewrite Hc.
    unfold saved_languages in Hl. rewrite !elem_of_cons, elem_of_nil in Hl.
    destruct Hl as [->|[->|[->|[]]]]; simplify_map_eq; apply js_or_idemp. }
  rewrite !Hb by (unfold saved_languages; set_solver). reflexivity.
Qed.

Lemma getStateAsXmlString_stable_witness :
  let e := addCodeToEditor "x = 'a' + 1" "python"
             (addCodeToEditor "BEGIN" "blockly" (new_CodeEditor example_browser KalebrWithConsole)) in
  getStateAsXmlString
    (editor_of (loadStateFromXmlString (getStateAsXmlString e)
                  (new_CodeEditor example_browser KalebrUndeclared)))
  = getStateAsXmlString e.
Proof.
  intros e. apply getStateAsXmlString_stable; reflexivity.
Defined.

Lemma plain_no_lt (p : string) : plain p = true → no_lt p = true.
Proof.
  apply string_forall_impl. intros c. unfold plain_char.
  rewrite !andb_true_iff. tauto.
Qed.

Lemma no_lt_prefix_inj (p q r s : string) :
  no_lt p = true → no_lt q = true →
  p +:+ String "<" r = q +:+ String "<" s → p = q ∧ r = s.
Proof.
  revert q. induction p as [|c p IH]; intros [|c' q] Hp Hq Heq.
  - change (String "<" r = String "<" s) in Heq. by injection Heq as ->.
  - change (String "<" r = String c' (q +:+ String "<" s)) in Heq.
    injection Heq as <- _. discriminate Hq.
  - change (String c (p +:+ String "<" r) = String "<" s) in Heq.
    injection Heq as -> _. discriminate Hp.
  - rewrite !app_cons in Heq. injection Heq as -> Heq.
    cbn [no_lt string_forall] in Hp, Hq.
    apply andb_true_iff in Hp as [_ Hp]. apply andb_true_iff in Hq as [_ Hq].
    by destruct (IH q Hp Hq Heq) as [-> ->].
Qed.

Lemma state_string_shape (p j a : string) :
  state_string p j a
  = ("<editor><language value=" +:+ dquote +:+ "python" +:+ dquote +:+ " >")
    +:+ (p +:+ String "<"
      (("/language><language value=" +:+ dquote +:+ "javascript" +:+ dquote +:+ " >")
       +:+ (j +:+ String "<"
         (("/language><language value=" +:+ dquote +:+ "arduino" +:+ dquote +:+ " >")
          +:+ (a +:+ String "<" "/language></editor>"))))).
Proof.
  unfold state_string, language_element. rewrite !app_assoc. reflexivity.
Qed.

(** X14. On buffers without an opening angle bracket, plain buffers among
    them, the persisted form determines the buffers: two editors whose
    python, javascript and arduino buffers hold no opening angle bracket and
    whose serialised states are equal have the same three buffers. *)
Theorem getStateAsXmlString_plain_inj (e1 e2 : CodeEditor) :
  no_lt (buffer e1 "python") = true →
  no_lt (buffer e1 "javascript") = true →
  no_lt (buffer e1 "arduino") = true →
  no_lt (buffer e2 "python") = true →
  no_lt (buffer e2 "javascript") = true →
  no_lt (buffer e2 "arduino") = true →
  getStateAsXmlString e1 = getStateAsXmlString e2 →
  buffer e1 "python" = buffer e2 "python"
  ∧ buffer e1 "javascript" = buffer e2 "javascript"
  ∧ buffer e1 "arduino" = buffer e2 "arduino".
Proof.
  intros Hp1 Hj1 Ha1 Hp2 Hj2 Ha2.
  rewrite !getStateAsXmlString_unfold, !state_string_shape. intros Heq.
  apply (inj (String.app _)) in Heq.
  apply no_lt_prefix_inj in Heq as [Hp Heq]; [|done|done].
  apply (inj (String.app _)) in Heq.
  apply no_lt_prefix_inj in Heq as [Hj Heq]; [|done|done].
  apply (inj (String.app _)) in Heq.
  apply no_lt_prefix_inj in Heq as [Ha _]; [|done|done].
  done.
Qed.

Lemma getStateAsXmlString_plain_inj_witness :
  let e1 := addCodeToEditor "a && b > c" "python"
              (new_CodeEditor example_browser KalebrWithConsole) in
  let e2 := addCodeToEditor "BEGIN" "blockly"
              (addCodeToEditor "a && b > c" "python"
                 (new_CodeEditor example_browser KalebrUndeclared)) in
  buffer e1 "python" = buffer e2 "python"
  ∧ buffer e1 "javascript" = buffer e2 "javascript"
  ∧ buffer e1 "arduino" = buffer e2 "arduino".
Proof.
  intros e1 e2. apply getStateAsXmlString_plain_inj; reflexivity.
Defined.

(** With markup in the buffers the persisted form does not determine them:
    two editors with different buffers and the same serialised state. *)
Example getStateAsXmlString_ambiguous :
  let e1 := addCodeToEditor
              ("a</language><language value=" +:+ dquote +:+ "javascript"
                 +:+ dquote +:+ " >b") "python"
              (addCodeToEditor "c" "javascript" (new_CodeEditor example_browser KalebrWithConsole)) in
  let e2 := addCodeToEditor "a" "python"
              (addCodeToEditor
                 ("b</language><language value=" +:+ dquote +:+ "javascript"
                    +:+ dquote +:+ " >c") "javascript"
                 (new_CodeEditor example_browser KalebrWithConsole)) in
  getStateAsXmlString e1 = getStateAsXmlString e2
  ∧ buffer e1 "python" ≠ buffer e2 "python".
Proof. vm_compute. split; [reflexivity|discriminate]. Qed.

(** X15. For plain buffers getStateAsXml is a document, never the document
    of a failed parse: its only child is the editor element, whose children
    are the three language elements in the configured order, each with the
    identifier as value attribute and the buffer as innerHTML. *)
Theorem getStateAsXml_plain (e : CodeEditor) :
  plain (buffer e "python") = true →
  plain (buffer e "javascript") = true →
  plain (buffer e "arduino") = true →
  ∃ children,
    getStateAsXml e = [Element "editor" [] children]
    ∧ getElementsByTagName "language" (getStateAsXml e) = children
    ∧ map (λ n, (getAttribute "value" n, innerHTML n)) children
      = [(Some "python", buffer e "python");
         (Some "javascript", buffer e "javascript");
         (Some "arduino", buffer e "arduino")].
Proof.
  intros Hp Hj Ha. unfold getStateAsXml, parseFromString.
  rewrite getStateAsXmlString_unfold, parse_xml_state_string by done.
  eexists. split; [reflexivity|]. split.
  - apply language_elements_editor. intros n. rewrite !elem_of_app.
    intros [H|[H|H]]; by apply text_nodes_not_elements in H.
  - cbn [map]. rewrite !innerHTML_language_element by done. reflexivity.
Qed.

Lemma getStateAsXml_plain_witness :
  let e := addCodeToEditor "x = 1" "python" (new_CodeEditor example_browser KalebrWithConsole) in
  ∃ children,
    getStateAsXml e = [Element "editor" [] children]
    ∧ getElementsByTagName "language" (getStateAsXml e) = children
    ∧ map (λ n, (getAttribute "value" n, innerHTML n)) children
      = [(Some "python", buffer e "python");
         (Some "javascript", buffer e "javascript");
         (Some "arduino", buffer e "arduino")].
Proof.
  intros e. apply getStateAsXml_plain; reflexivity.
Defined.

(** ** Saving and pushing, on every editor *)

Lemma digits_value_ge (r : string) (acc i : nat) :
  digits_value r acc = Some i →
  acc ≤ i ∧ (r ≠ EmptyString → 10 * acc ≤ i).
Proof.
  revert acc. induction r as [|c r IH]; intros acc.
  - cbn. intros [= <-]. split; [lia|done].
  - cbn [digits_value]. destruct (is_digit c); [|discriminate].
    intros H. apply IH in H as [H _]. split; intros; lia.
Qed.

Lemma array_index_small (key : string) (i : nat) :
  array_index key = Some i → i < 4 →
  (key, i) ∈ [("0", 0); ("1", 1); ("2", 2); ("3", 3)].
Proof.
  destruct key as [|c r]; [discriminate|]. unfold array_index.
  destruct (Ascii.eqb c "0") eqn:E.
  - apply Ascii.eqb_eq in E as ->. destruct r; [|discriminate].
    intros [= <-] _. set_solver.
  - cbn [digits_value]. destruct (is_digit c) eqn:Hd; [|discriminate].
    unfold is_digit in Hd. apply andb_true_iff in Hd as [Hlo Hhi].
    apply Nat.leb_le in Hlo, Hhi.
    assert (Hn : nat_of_ascii c ≠ 48).
    { intros Hn. rewrite <- (ascii_nat_embedding c), Hn in E. discriminate E. }
    destruct r as [|c' r].
    + cbn [digits_value]. intros [= <-] Hi.
      rewrite <- (ascii_nat_embedding c).
      assert (Hc : nat_of_ascii c = 49 ∨ nat_of_ascii c = 50 ∨ nat_of_ascii c = 51)
        by lia.
      destruct Hc as [Hc|[Hc|Hc]]; rewrite Hc; cbn; set_solver.
    + intros H Hi. apply digits_value_ge in H as [_ H2].
      specialize (H2 ltac:(discriminate)). lia.
Qed.

(** X16. saveCode returns only when the selected language is one of the
    numerals 0 to 3, which no configured language is, and the file name it
    then hands to saveAs is the given name followed by one character of an
    extension or by the text undefined, never by the extension of a
    configured language. For every other selected language it throws a
    TypeError and nothing is saved. *)
Theorem saveCode_outcome (fileName : string) (e : CodeEditor) :
  (∀ e', saveCode fileName e = Normal e' →
     (∃ suffix,
        (language e, suffix) ∈ [("0", "."); ("1", "j"); ("2", "n"); ("3", "undefined")]
        ∧ e' = log_saveAs (textarea (flask e)) (fileName +:+ suffix) e)
     ∧ ∀ d, d ∈ languages →
         saved e' ≠ saved e ++ [(textarea (flask e), fileName +:+ extension d)])
  ∧ (language e ∉ ["0"; "1"; "2"; "3"] → saveCode fileName e = Throw TypeError e).
Proof.
  unfold saveCode. split.
  - intros e'. destruct (array_index (language e)) as [i|] eqn:Hi; [|discriminate].
    destruct (languages !! i) as [d0|] eqn:Hd0; [|discriminate].
    intros [= <-].
    assert (Hlt : i < 4) by (apply lookup_lt_Some in Hd0; exact Hd0).
    pose proof (array_index_small _ _ Hi Hlt) as Hk.
    rewrite !elem_of_cons, elem_of_nil in Hk.
    assert (Hs : (language e, string_at (extension d0) i)
                 ∈ [("0", "."); ("1", "j"); ("2", "n"); ("3", "undefined")]).
    { destruct Hk as [Hk|[Hk|[Hk|[Hk|[]]]]]; injection Hk as Hk1 Hk2;
        rewrite Hk1; subst i; injection Hd0 as <-;
        rewrite !elem_of_cons; repeat (first [left; reflexivity | right]). }
    split; [by eexists|].
    intros d Hd Heq. cbn [saved log_saveAs] in Heq.
    apply app_inv_head in Heq. injection Heq as Heq.
    apply (inj (String.app fileName)) in Heq.
    rewrite !elem_of_cons, elem_of_nil in Hs.
    unfold languages in Hd. rewrite !elem_of_cons, elem_of_nil in Hd.
    destruct Hs as [Hs|[Hs|[Hs|[Hs|[]]]]]; injection Hs as _ Hs;
      rewrite Hs in Heq;
      destruct Hd as [->|[->|[->|[->|[]]]]]; discriminate Heq.
  - intros Hl. destruct (array_index (language e)) as [i|] eqn:Hi; [|done].
    destruct (languages !! i) as [d0|] eqn:Hd0; [|done].
    exfalso. apply Hl.
    assert (Hlt : i < 4) by (apply lookup_lt_Some in Hd0; exact Hd0).
    pose proof (array_index_small _ _ Hi Hlt) as Hk.
    rewrite !elem_of_cons, elem_of_nil in Hk.
    destruct Hk as [Hk|[Hk|[Hk|[Hk|[]]]]]; injection Hk as Hk1 _;
      rewrite Hk1; rewrite !elem_of_cons;
      repeat (first [left; reflexivity | right]).
Qed.

Lemma saveCode_outcome_witness :
  let body := λ (f : listener) (_ : event) (e : CodeEditor), e in
  let e := editor_of (changeLanguage body "1" (new_CodeEditor example_browser KalebrWithConsole)) in
  (∃ suffix,
     (language e, suffix) ∈ [("0", "."); ("1", "j"); ("2", "n"); ("3", "undefined")]
     ∧ log_saveAs EmptyString "projj" e
       = log_saveAs (textarea (flask e)) ("proj" +:+ suffix) e)
  ∧ saveCode "proj" (new_CodeEditor example_browser KalebrWithConsole)
    = Throw TypeError (new_CodeEditor example_browser KalebrWithConsole).
Proof.
  intros body e. split.
  - apply (proj1 (saveCode_outcome "proj" e) (log_saveAs EmptyString "projj" e)).
    reflexivity.
  - apply (proj2 (saveCode_outcome "proj" (new_CodeEditor example_browser KalebrWithConsole))).
    rewrite !not_elem_of_cons. repeat split; [discriminate ..|].
    apply not_elem_of_nil.
Defined.

(** X17. pushCode changes nothing of the editor but the log of uploads, to
    which it adds at most the content of the text area. With python selected
    it throws a ReferenceError when the global Kalebr is not declared, and
    does nothing when Kalebr has no Console. *)
Theorem pushCode_outcome (e : CodeEditor) :
  let e' := editor_of (pushCode e) in
  (language e' = language e ∧ code e' = code e ∧ flask e' = flask e
   ∧ pushDisabled e' = pushDisabled e ∧ listeners_ e' = listeners_ e
   ∧ saved e' = saved e)
  ∧ (uploads e' = uploads e ∨ uploads e' = uploads e ++ [textarea (flask e)])
  ∧ (language e = "python" → Kalebr e = KalebrUndeclared →
     pushCode e = Throw ReferenceError e)
  ∧ (language e = "python" → Kalebr e = KalebrWithoutConsole →
     pushCode e = Normal e).
Proof.
  intros e'. split; [apply pushCode_frame|]. unfold e', pushCode.
  destruct (decide _) as [Hne|Heq].
  - split; [by left|]. split; intros Hl; by destruct Hne.
  - destruct (Kalebr e); (split; [by (left + right)|]); split; intros; done.
Qed.

Lemma pushCode_outcome_witness :
  pushCode (new_CodeEditor example_browser KalebrUndeclared)
  = Throw ReferenceError (new_CodeEditor example_browser KalebrUndeclared)
  ∧ pushCode (new_CodeEditor example_browser KalebrWithoutConsole)
    = Normal (new_CodeEditor example_browser KalebrWithoutConsole).
Proof.
  split.
  - apply (pushCode_outcome (new_CodeEditor example_browser KalebrUndeclared)); reflexivity.
  - apply (pushCode_outcome (new_CodeEditor example_browser KalebrWithoutConsole)); reflexivity.
Defined.

(** ** Storing code and showing it *)

(** X18. addCodeToEditor followed by refreshEditor for the same configured
    language shows the stored code: it is the buffer of the language, the
    text area holds it as the text area reads it back, hence as it is when
    the text area reads it back unchanged, no other entry has changed, and
    the selected language is as before. *)
Theorem addCodeToEditor_then_refreshEditor (c l : string) (e : CodeEditor) :
  l ∈ map value languages →
  ∃ e', refreshEditor (Some l) (addCodeToEditor c l e) = Normal e'
        ∧ textarea (flask e') = textarea_value (flask e) c
        ∧ (textarea_value (flask e) c = c → textarea (flask e') = c)
        ∧ buffer e' l = c
        ∧ (∀ k, k ≠ l → code e' !! k = code e !! k)
        ∧ language e' = language e.
Proof.
  intros Hl. destruct (getLanguageAttributes_configured _ Hl) as (d & Hd & _).
  pose proof (configured_nonempty l Hl) as Hne.
  pose proof (configured_not_proto l Hl) as Hnp.
  eexists. split.
  - apply (refreshEditor_Normal _ _ d). by rewrite resolved_language_Some.
  - rewrite resolved_language_Some by done.
    assert (Hb : buffer (addCodeToEditor c l e) l = c).
    { unfold buffer, addCodeToEditor. cbn.
      rewrite js_set_lookup_eq by done. by destruct c. }
    assert (Ht : textarea_value (flask (addCodeToEditor c l e))
                   (buffer (addCodeToEditor c l e) l)
                 = textarea_value (flask e) c) by (by rewrite Hb).
    split; [exact Ht|]. split; [intros Hv; etrans; [exact Ht|exact Hv]|].
    split; [exact Hb|]. split; [|done].
    intros k Hk. cbn. by rewrite js_set_lookup_ne.
Qed.

Lemma addCodeToEditor_then_refreshEditor_witness :
  ∃ e', refreshEditor (Some "arduino")
          (addCodeToEditor "void setup() {}" "arduino"
             (new_CodeEditor example_browser KalebrWithConsole)) = Normal e'
        ∧ textarea (flask e')
          = textarea_value (flask (new_CodeEditor example_browser KalebrWithConsole))
              "void setup() {}"
        ∧ (textarea_value (flask (new_CodeEditor example_browser KalebrWithConsole))
             "void setup() {}" = "void setup() {}" →
           textarea (flask e') = "void setup() {}")
        ∧ buffer e' "arduino" = "void setup() {}"
        ∧ (∀ k, k ≠ "arduino" →
             code e' !! k = code (new_CodeEditor example_browser KalebrWithConsole) !! k)
        ∧ language e' = language (new_CodeEditor example_browser KalebrWithConsole).
Proof.
  apply addCodeToEditor_then_refreshEditor.
  cbn [map languages value]. rewrite !elem_of_cons. tauto.
Defined.

Lemma loadStateFromXml_any_order_witness :
  let e := new_CodeEditor example_browser KalebrWithConsole in
  code (editor_of (loadStateFromXml
          (parseFromString (λ _, [])
             "<editor><language value='ruby'>puts 1</language><language value='python'>x=1</language></editor>")
          e))
  = code (editor_of (loadStateFromXml
            (parseFromString (λ _, [])
               "<editor><language value='python'>x=1</language><language value='ruby'>puts 1</language></editor>")
            e)).
Proof.
  intros e. apply loadStateFromXml_any_order.
  - vm_compute. apply NoDup_cons. split; [|apply NoDup_singleton].
    intros H%list_elem_of_singleton. discriminate H.
  - vm_compute. apply perm_swap.
Defined.
